(** * Task_1.py: World Bank demographic pipeline

    A shallow embedding of [Task_1.py]: the fetcher
    ([fetch_wb_demographic_data]), the sample generator
    ([create_sample_demographic_data]) and the module-level script that
    selects the data, truncates it, shortens the labels, resolves the
    population and age fields and averages the age brackets.

    Python values are an inductive type, exceptions are an error monad,
    the script's [data] dictionary is a [gmap] from keys to lists, and
    [wb_data] (whose insertion order the script relies on) is an
    association list.  Numbers are exact rationals: binary rounding of
    floats is not modelled. *)

From Stdlib Require Import QArith Qabs Lqa.
From stdpp Require Import base option list strings gmap fin_maps pretty.

Open Scope string_scope.
Open Scope list_scope.

(** ** Python values and exceptions *)

Module Py.

(** A value of the script: what [json] decoding and pandas cells produce.
    [PNaN] is the float NaN that pandas uses for a missing cell and that
    [np.mean] returns on an empty list.  A [str] is a [string], one
    [ascii] per character. *)
#[local] Set Warnings "-register-all".
Inductive pyval : Type :=
| PNone
| PBool (b : bool)
| PNum (q : Q)
| PNaN
| PStr (s : string)
| PList (l : list pyval)
| PDict (kvs : list (string * pyval)).

Inductive exn : Type :=
| KeyError (k : string)
| IndexError
| TypeError
| OtherError (msg : string).

Inductive result (A : Type) : Type :=
| Ok (a : A)
| Raise (e : exn).
Arguments Ok {A} a.
Arguments Raise {A} e.

Definition bind {A B} (m : result A) (f : A -> result B) : result B :=
  match m with
  | Ok a => f a
  | Raise e => Raise e
  end.

Notation "'let*' x ':=' m 'in' k" := (bind m (fun x => k))
  (at level 10, x name, m at level 100, k at level 200,
   format "'[v' 'let*'  x  ':='  m  'in' '/' k ']'").

(** A comprehension [[f x for x in l]] whose body may raise. *)
Fixpoint for_each {A B} (f : A -> result B) (l : list A) : result (list B) :=
  match l with
  | [] => Ok []
  | x :: rest =>
      let* y := f x in
      let* ys := for_each f rest in
      Ok (y :: ys)
  end.

Definition raises {A} (r : result A) : Prop :=
  match r with
  | Ok _ => False
  | Raise _ => True
  end.

(** Lookup in an insertion-ordered association list (a Python [dict]
    whose order matters, or the columns of a table). *)
Fixpoint alist_get {V} (k : string) (d : list (string * V)) : option V :=
  match d with
  | [] => None
  | (k', v) :: d' => if String.eqb k k' then Some v else alist_get k d'
  end.

(** [d[k] = v] on an insertion-ordered dict: an existing key keeps its
    position, a new key goes last. *)
Fixpoint alist_set {V} (k : string) (v : V) (d : list (string * V))
  : list (string * V) :=
  match d with
  | [] => [(k, v)]
  | (k', v') :: d' =>
      if String.eqb k k' then (k, v) :: d' else (k', v') :: alist_set k v d'
  end.

Definition isinstance_dict (v : pyval) : bool :=
  match v with
  | PDict _ => true
  | _ => false
  end.

(** [v[k]] for a string key [k]: defined on dicts only; a missing key is a
    [KeyError], and indexing a str, list, number or None by a str is a
    [TypeError]. *)
Definition getitem_str (v : pyval) (k : string) : result pyval :=
  match v with
  | PDict kvs =>
      match alist_get k kvs with
      | Some x => Ok x
      | None => Raise (KeyError k)
      end
  | _ => Raise TypeError
  end.

(** [len(v)] *)
Definition py_len (v : pyval) : result nat :=
  match v with
  | PStr s => Ok (String.length s)
  | PList l => Ok (length l)
  | PDict kvs => Ok (length kvs)
  | _ => Raise TypeError
  end.

(** [v[i]] for a non-negative integer [i].  The keys of a decoded JSON
    object are strings, so an integer key is never found. *)
Definition getitem_int (v : pyval) (i : nat) : result pyval :=
  match v with
  | PList l =>
      match l !! i with
      | Some x => Ok x
      | None => Raise IndexError
      end
  | PStr s =>
      match String.get i s with
      | Some c => Ok (PStr (String c EmptyString))
      | None => Raise IndexError
      end
  | PDict _ => Raise (KeyError (pretty i))
  | _ => Raise TypeError
  end.

(** Truth value of [v] in a condition. *)
Definition truthy (v : pyval) : bool :=
  match v with
  | PNone => false
  | PBool b => b
  | PNum q => negb (Qeq_bool q 0)
  | PNaN => true
  | PStr s => negb (String.eqb s "")
  | PList l => negb (Nat.eqb (length l) 0)
  | PDict kvs => negb (Nat.eqb (length kvs) 0)
  end.

End Py.
Export Py.

(** ** Tables *)

(** A pandas [DataFrame]: the length of its index (the number of rows) and
    its columns in order, each a list of cells. *)
Record DataFrame : Type := mkDataFrame {
  df_len : nat;
  df_columns : list (string * list pyval)
}.

(** ['c' in df.columns] *)
Definition has_column (c : string) (df : DataFrame) : bool :=
  match alist_get c (df_columns df) with
  | Some _ => true
  | None => false
  end.

(** [df['c']] *)
Definition get_column (c : string) (df : DataFrame) : result (list pyval) :=
  match alist_get c (df_columns df) with
  | Some col => Ok col
  | None => Raise (KeyError c)
  end.

(** [col.iloc[i]] *)
Definition iloc (col : list pyval) (i : nat) : result pyval :=
  match col !! i with
  | Some x => Ok x
  | None => Raise IndexError
  end.

(** [df.empty]: some axis has length 0. *)
Definition df_empty (df : DataFrame) : bool :=
  Nat.eqb (df_len df) 0 || Nat.eqb (length (df_columns df)) 0.

(** ** The fetcher *)

Definition INDICATORS : list (string * string) :=
  [ ("male_pop", "SP.POP.TOTL.MA.IN");
    ("female_pop", "SP.POP.TOTL.FE.IN");
    ("age_0_14", "SP.POP.0014.TO.ZS");
    ("age_15_64", "SP.POP.1564.TO.ZS");
    ("age_65_plus", "SP.POP.65UP.TO.ZS") ].

(** The query parameters of one request. *)
Record params : Type := mkParams {
  p_format : string;
  p_per_page : nat;
  p_date : string
}.

(** What the body of the [try] block can do up to [data = response.json()]:
    raise a [requests.exceptions.RequestException] (connection failure, or
    the HTTP error of [raise_for_status]), raise something else, or
    produce the decoded body. *)
Inductive outcome : Type :=
| RequestException (e : string)
| OtherException (e : exn)
| Body (data : pyval).

(** A line of standard output. *)
Inductive line : Type :=
| Fetched (indicator_name : string)
| ErrorFetching (indicator_name : string) (e : string).

Definition render (l : line) : string :=
  match l with
  | Fetched n => "✓ Fetched " ++ n ++ " data"
  | ErrorFetching n e => "✗ Error fetching " ++ n ++ ": " ++ e
  end.

(** The state threaded through the loop of the fetcher: the dictionary
    being filled, what was printed, and the requests issued so far. *)
Record fetch_state : Type := mkFetch {
  all_data : list (string * DataFrame);
  printed : list line;
  issued : list (string * params)
}.

Section Fetcher.

(** The network, and the [pd.DataFrame] constructor (which may raise). *)
Variable requests_get : string -> params -> outcome.
Variable pd_DataFrame : pyval -> result DataFrame.

Definition url_of (countries indicator_code : string) : string :=
  "https://api.worldbank.org/v2/country/" ++ countries
    ++ "/indicator/" ++ indicator_code.

(** One iteration of the [for] loop. *)
Definition fetch_indicator (countries year : string)
    (st : fetch_state) (ind : string * string) : result fetch_state :=
  let '(indicator_name, indicator_code) := ind in
  let url := url_of countries indicator_code in
  let ps := mkParams "json" 1000 year in
  let sent := issued st ++ [(url, ps)] in
  match requests_get url ps with
  | RequestException e =>
      Ok (mkFetch (all_data st)
                  (printed st ++ [ErrorFetching indicator_name e]) sent)
  | OtherException e => Raise e
  | Body data =>
      let* n := py_len data in
      if Nat.ltb 1 n then
        let* d1 := getitem_int data 1 in
        if truthy d1 then
          let* df := pd_DataFrame d1 in
          Ok (mkFetch (alist_set indicator_name df (all_data st))
                      (printed st ++ [Fetched indicator_name]) sent)
        else Ok (mkFetch (all_data st) (printed st) sent)
      else Ok (mkFetch (all_data st) (printed st) sent)
  end.

Fixpoint fetch_loop (countries year : string) (st : fetch_state)
    (inds : list (string * string)) : result fetch_state :=
  match inds with
  | [] => Ok st
  | ind :: rest =>
      let* st' := fetch_indicator countries year st ind in
      fetch_loop countries year st' rest
  end.

Definition fetch_wb_demographic_data (countries year : string)
  : result fetch_state :=
  fetch_loop countries year (mkFetch [] [] []) INDICATORS.

End Fetcher.

Definition default_countries : string := "USA;CHN;IND;BRA;DEU;JPN;GBR;FRA".
Definition default_year : string := "2022".

(** The keys of a record, the columns collected so far, and the cell of a
    record in a column (NaN where the record lacks the key). *)
Definition record_keys (r : pyval) : list string :=
  match r with
  | PDict kvs => kvs.*1
  | _ => []
  end.

Definition add_key (seen : list string) (k : string) : list string :=
  if existsb (String.eqb k) seen then seen else seen ++ [k].

Definition cell_of (k : string) (r : pyval) : pyval :=
  match r with
  | PDict kvs => default PNaN (alist_get k kvs)
  | _ => PNaN
  end.

(** [pd.DataFrame(records)] on a list of JSON objects, the shape the API
    sends as the second element of its body: one row per record, one
    column per key in order of first appearance.  Other arguments are
    outside this model of the constructor. *)
Definition frame_of_records (d : pyval) : result DataFrame :=
  match d with
  | PList records =>
      if forallb isinstance_dict records then
        let keys := foldl add_key [] (records ≫= record_keys) in
        Ok (mkDataFrame (length records)
              ((λ k, (k, cell_of k <$> records)) <$> keys))
      else Raise (OtherError "frame_of_records: not a list of records")
  | _ => Raise (OtherError "frame_of_records: not a list of records")
  end.

(** ** The sample generator *)

Definition create_sample_demographic_data : gmap string (list pyval) :=
  let countries :=
    PStr <$> ["United States"; "China"; "India"; "Germany"; "Japan";
              "Brazil"; "United Kingdom"; "France"] in
  list_to_map
    [ ("countries", countries);
      ("male_population", PNum <$> [163; 723; 717; 41; 61; 106; 33; 33]%Q);
      ("female_population", PNum <$> [168; 689; 663; 42; 64; 109; 34; 35]%Q);
      ("age_0_14_percent",
        PNum <$> [18.1; 17.3; 26.2; 13.9; 12.5; 21.1; 17.9; 17.9]%Q);
      ("age_15_64_percent",
        PNum <$> [65.0; 70.1; 67.0; 64.9; 59.2; 69.6; 64.2; 61.7]%Q);
      ("age_65_plus_percent",
        PNum <$> [16.9; 12.6; 6.8; 21.2; 28.3; 9.3; 17.9; 20.4]%Q) ].

(** ** The script *)

(** [d[k]] on the [data] dictionary. *)
Definition data_getitem (k : string) (data : gmap string (list pyval))
  : result (list pyval) :=
  match data !! k with
  | Some l => Ok l
  | None => Raise (KeyError k)
  end.

(** [np.mean] of a flat list, in exact arithmetic: the entries are added
    and the sum divided by the count, without the rounding of float64
    (the exact mean and the float mean can differ in the last place).
    NaN is absorbing and the mean of no
    entries is NaN; an entry that is not a number raises.  (A nested
    rectangular list, which numpy would average as a matrix, is counted
    among the entries that raise: no list that reaches [np.mean] here
    holds one.) *)
Fixpoint np_sum (acc : option Q) (l : list pyval) : result (option Q) :=
  match l with
  | [] => Ok acc
  | PNum q :: rest => np_sum ((λ a, (a + q)%Q) <$> acc) rest
  | PBool b :: rest =>
      np_sum ((λ a, (a + (if b then 1 else 0))%Q) <$> acc) rest
  | PNaN :: rest => np_sum None rest
  | _ :: _ => Raise TypeError
  end.

Definition np_mean (l : list pyval) : result pyval :=
  let* s := np_sum (Some 0%Q) l in
  match l, s with
  | _ :: _, Some q => Ok (PNum (q / inject_Z (Z.of_nat (length l)))%Q)
  | _, _ => Ok PNaN
  end.

(** [country[:12] + '...' if len(country) > 12 else country] *)
Definition slice12 (v : pyval) : result pyval :=
  match v with
  | PStr s => Ok (PStr (String.substring 0 12 s))
  | PList l => Ok (PList (take 12 l))
  | _ => Raise TypeError
  end.

Definition py_add (a b : pyval) : result pyval :=
  match a, b with
  | PStr s, PStr t => Ok (PStr (s ++ t))
  | PList l, PList k => Ok (PList (l ++ k))
  | PNum p, PNum q => Ok (PNum (p + q)%Q)
  | _, _ => Raise TypeError
  end.

Definition shorten (country : pyval) : result pyval :=
  let* n := py_len country in
  if Nat.ltb 12 n then
    let* pre := slice12 country in
    py_add pre (PStr "...")
  else Ok country.

(** Lines 91-94: the count comes from [data['countries']] alone, and every
    value of the dictionary (each is a list) is cut to that many entries. *)
Definition truncate_all (num_countries : nat)
    (data : gmap string (list pyval)) : gmap string (list pyval) :=
  take num_countries <$> data.

Definition truncate (data : gmap string (list pyval))
  : result (nat * gmap string (list pyval)) :=
  let* countries := data_getitem "countries" data in
  let num_countries := Nat.min 8 (length countries) in
  Ok (num_countries, truncate_all num_countries data).

(** ['k' in data] *)
Definition has_key (k : string) (data : gmap string (list pyval)) : bool :=
  bool_decide (is_Some (data !! k)).

(** [data.get(k, d)] *)
Definition data_get (k : string) (d : list pyval)
    (data : gmap string (list pyval)) : list pyval :=
  default d (data !! k).

(** [[v] * n] *)
Definition constant_list (v : Q) (n : nat) : list pyval :=
  replicate n (PNum v).

(** Lines 99-105. *)
Definition population_fields (data : gmap string (list pyval))
    (num_countries : nat) : result (list pyval * list pyval) :=
  if has_key "male_population" data && has_key "female_population" data then
    let* male_data := data_getitem "male_population" data in
    let* female_data := data_getitem "female_population" data in
    Ok (male_data, female_data)
  else
    Ok (take num_countries
          (data_get "male_pop" (constant_list 100 num_countries) data),
        take num_countries
          (data_get "female_pop" (constant_list 100 num_countries) data)).

(** Lines 107-109, one line each. *)
Definition age_field (sample_key fetched_key : string) (dflt : Q)
    (data : gmap string (list pyval)) (num_countries : nat) : list pyval :=
  take num_countries
    (data_get sample_key
       (data_get fetched_key (constant_list dflt num_countries) data) data).

(** The values the script computes for its charts and its summary: the
    truncated data, the labels, the five fields (lines 91-109) and the
    three averages (lines 131-135). *)
Record report : Type := mkReport {
  data : gmap string (list pyval);
  num_countries : nat;
  countries_short : list pyval;
  male_data : list pyval;
  female_data : list pyval;
  age_0_14 : list pyval;
  age_15_64 : list pyval;
  age_65_plus : list pyval;
  avg_age_dist : list pyval
}.

(** Lines 91-109 and 131-135 on the selected [data].  The drawing of
    lines 112-127 is not part of this function: [ax1.bar], which comes
    before the averages, raises when a population list and the labels
    cannot be broadcast to one length, so a result [Ok r] says what the
    values are, not that the charts are drawn. *)
Definition normalize (data0 : gmap string (list pyval)) : result report :=
  let* nd := truncate data0 in
  let '(n, data) := nd in
  let* countries := data_getitem "countries" data in
  let* short := for_each shorten countries in
  let* mf := population_fields data n in
  let a0 := age_field "age_0_14_percent" "age_0_14" 20 data n in
  let a1 := age_field "age_15_64_percent" "age_15_64" 65 data n in
  let a2 := age_field "age_65_plus_percent" "age_65_plus" 15 data n in
  let* avg := for_each np_mean [a0; a1; a2] in
  Ok (mkReport data n short mf.1 mf.2 a0 a1 a2 avg).

Section Script.

(** What [pd.to_numeric] makes of a str cell: the number it denotes, or
    nothing when the text is not a (finite) number. *)
Variable parse_float : string -> option Q.

(** [pd.to_numeric(_, errors='coerce')] on one cell. *)
Definition to_numeric (c : pyval) : pyval :=
  match c with
  | PNum q => PNum q
  | PBool b => PNum (if b then 1 else 0)%Q
  | PStr s =>
      match parse_float s with
      | Some q => PNum q
      | None => PNaN
      end
  | PNone | PNaN | PList _ | PDict _ => PNaN
  end.

(** [.fillna(0)] on one cell. *)
Definition fillna0 (c : pyval) : pyval :=
  match c with
  | PNaN | PNone => PNum 0
  | _ => c
  end.

(** Lines 71-77. *)
Definition extract_countries (first_dataset : DataFrame)
  : result (list pyval) :=
  if has_column "country" first_dataset then
    let* col := get_column "country" first_dataset in
    let* c0 := iloc col 0 in
    if isinstance_dict c0 then
      for_each (λ country, getitem_str country "value") col
    else Ok col
  else
    Ok ((λ i, PStr ("Country_" ++ pretty (i + 1)%nat))
          <$> seq 0 (df_len first_dataset)).

(** Line 83. *)
Definition indicator_values (df : DataFrame) : result (list pyval) :=
  let* col := get_column "value" df in
  Ok ((λ c, fillna0 (to_numeric c)) <$> col).

(** Lines 81-84. *)
Fixpoint fill_indicators (items : list (string * DataFrame))
    (data : gmap string (list pyval)) : result (gmap string (list pyval)) :=
  match items with
  | [] => Ok data
  | (indicator_name, df) :: rest =>
      if negb (df_empty df) then
        let* values := indicator_values df in
        fill_indicators rest (<[indicator_name := values]> data)
      else fill_indicators rest data
  end.

(** Lines 69-84, the branch that processes the fetched tables. *)
Definition process_wb_data (wb_data : list (string * DataFrame))
  : result (gmap string (list pyval)) :=
  let* first_dataset := match wb_data with
                        | [] => Raise IndexError
                        | (_, df) :: _ => Ok df
                        end in
  let* countries := extract_countries first_dataset in
  fill_indicators wb_data {[ "countries" := countries ]}.

(** Lines 66-88: [if wb_data and len(wb_data) > 2: ... else: ...]. *)
Definition select_data (wb_data : list (string * DataFrame))
  : result (gmap string (list pyval)) :=
  if negb (Nat.eqb (length wb_data) 0) && Nat.ltb 2 (length wb_data)
  then process_wb_data wb_data
  else Ok create_sample_demographic_data.

(** The script from line 66 on, given what the fetcher returned. *)
Definition script (wb_data : list (string * DataFrame)) : result report :=
  let* data0 := select_data wb_data in
  normalize data0.

End Script.

(** ** Reference readings used in the statements below *)

(** The priority reading of a field: the candidate keys are tried in
    order, the first one present in [data] gives the value, and the
    default is used when none is. *)
Fixpoint first_present (keys : list string) (dflt : list pyval)
    (data : gmap string (list pyval)) : list pyval :=
  match keys with
  | [] => dflt
  | k :: rest =>
      match data !! k with
      | Some l => l
      | None => first_present rest dflt data
      end
  end.

(** A cell "parses as" the number [q]: it is that number, a boolean
    counted as 0 or 1, or a str that [parse_float] reads as [q].  None,
    NaN, lists and dicts parse as nothing. *)
Definition parses_as (parse_float : string -> option Q)
    (c : pyval) (q : Q) : Prop :=
  match c with
  | PNum p => q = p
  | PBool b => q = (if b then 1 else 0)%Q
  | PStr s => parse_float s = Some q
  | _ => False
  end.

(** The non-empty payload of a response, when it has one: the body is a
    JSON array of more than one element whose second element is truthy
    ([len(data) > 1 and data[1]]). *)
Definition payload (o : outcome) : option pyval :=
  match o with
  | Body (PList (_ :: d1 :: _)) => if truthy d1 then Some d1 else None
  | _ => None
  end.

Section FetcherReadings.

Variable requests_get : string -> params -> outcome.
Variable pd_DataFrame : pyval -> result DataFrame.
Variables countries year : string.

(** The request the fetcher sends for an indicator, and its outcome. *)
Definition request_of (ind : string * string) : string * params :=
  (url_of countries ind.2, mkParams "json" 1000 year).

Definition answer (ind : string * string) : outcome :=
  requests_get (url_of countries ind.2) (mkParams "json" 1000 year).

(** The request for [ind] succeeded with a non-empty payload, from which
    the table [df] is built. *)
Definition succeeded_with (ind : string * string) (df : DataFrame) : Prop :=
  exists d, payload (answer ind) = Some d /\ pd_DataFrame d = Ok df.

(** The entry an indicator contributes to the mapping, if any. *)
Definition table_of (ind : string * string)
  : option (string * DataFrame) :=
  match payload (answer ind) with
  | Some d =>
      match pd_DataFrame d with
      | Ok df => Some (ind.1, df)
      | Raise _ => None
      end
  | None => None
  end.

(** The lines an indicator contributes to the output. *)
Definition lines_of (ind : string * string) : list line :=
  match answer ind with
  | RequestException e => [ErrorFetching ind.1 e]
  | _ =>
      match payload (answer ind) with
      | Some _ => [Fetched ind.1]
      | None => []
      end
  end.

(** The outcomes under which nothing but a [RequestException] is raised
    in the loop: the request fails with one, or the body is a JSON array
    from whose payload, if it has one, the table can be built. *)
Definition well_shaped (o : outcome) : Prop :=
  match o with
  | RequestException _ => True
  | OtherException _ => False
  | Body data =>
      (exists l, data = PList l)
      /\ forall d, payload o = Some d -> exists df, pd_DataFrame d = Ok df
  end.

End FetcherReadings.

(** The characters of a str. *)
Fixpoint chars (s : string) : list Ascii.ascii :=
  match s with
  | EmptyString => []
  | String c s' => c :: chars s'
  end.

(** ** Concrete inputs used in the examples *)

(** A reading of str cells for the examples: unsigned decimal integers. *)
Definition digit_of (c : Ascii.ascii) : option Z :=
  let n := Z.of_N (Ascii.N_of_ascii c) in
  if (48 <=? n)%Z && (n <=? 57)%Z then Some (n - 48)%Z else None.

Fixpoint digits_value (acc : Z) (s : string) : option Z :=
  match s with
  | EmptyString => Some acc
  | String c s' =>
      match digit_of c with
      | Some d => digits_value (10 * acc + d)%Z s'
      | None => None
      end
  end.

Definition parse_unsigned (s : string) : option Q :=
  match s with
  | EmptyString => None
  | _ => inject_Z <$> digits_value 0 s
  end.

(** One record of the API's payload: the country as a code and a display
    name, and the value. *)
Definition api_record (code name : string) (value : pyval) : pyval :=
  PDict [ ("country", PDict [("id", PStr code); ("value", PStr name)]);
          ("countryiso3code", PStr code);
          ("date", PStr "2022");
          ("value", value) ].

(** The body of a response: paging information, then the records. *)
Definition api_body (records : list pyval) : pyval :=
  PList [ PDict [("page", PNum 1); ("per_page", PNum 1000)]; PList records ].

Definition three_rows : DataFrame :=
  mkDataFrame 3
    [ ("country",
        [ PDict [("id", PStr "US"); ("value", PStr "United States")];
          PDict [("id", PStr "CN"); ("value", PStr "China")];
          PDict [("id", PStr "IN"); ("value", PStr "India")] ]);
      ("value", [PNum 163; PNone; PStr "717"]) ].

Definition one_row : DataFrame :=
  mkDataFrame 1
    [ ("country", [PDict [("id", PStr "US"); ("value", PStr "United States")]]);
      ("value", [PNum 18.1]) ].

Definition two_tables : list (string * DataFrame) :=
  [ ("male_pop", three_rows); ("female_pop", three_rows) ].

Definition three_tables : list (string * DataFrame) :=
  [ ("male_pop", three_rows); ("female_pop", three_rows);
    ("age_0_14", one_row) ].

(** A dictionary with the sample key of the male field and nothing for the
    female field. *)
Definition lone_male_population : gmap string (list pyval) :=
  list_to_map [ ("countries", [PStr "A"]); ("male_population", [PNum 5]) ].

(** A dictionary with ten countries and ten values for one indicator. *)
Definition ten_countries : gmap string (list pyval) :=
  list_to_map
    [ ("countries", (λ i : nat, PStr ("Country_" ++ pretty i)) <$> seq 1 10);
      ("male_pop", PNum <$> [1; 2; 3; 4; 5; 6; 7; 8; 9; 10]%Q) ].

(** A dictionary whose indicator list is shorter than its country list. *)
Definition short_indicator : gmap string (list pyval) :=
  list_to_map
    [ ("countries", [PStr "United States"; PStr "China"; PStr "India"]);
      ("male_pop", [PNum 163; PNum 0; PNum 717]);
      ("age_0_14", [PNum 18.1]) ].

(** Tables for the three shapes of the country column, and two mixed ones. *)
Definition plain_rows : DataFrame :=
  mkDataFrame 2
    [ ("country", [PStr "Germany"; PStr "Japan"]);
      ("value", [PNum 41; PNum 61]) ].

Definition no_country_rows : DataFrame :=
  mkDataFrame 2 [ ("value", [PNum 41; PNum 61]) ].

Definition coded_then_plain : DataFrame :=
  mkDataFrame 2
    [ ("country",
        [ PDict [("id", PStr "US"); ("value", PStr "United States")];
          PStr "China" ]) ].

Definition plain_then_coded : DataFrame :=
  mkDataFrame 2
    [ ("country",
        [ PStr "China";
          PDict [("id", PStr "US"); ("value", PStr "United States")] ]) ].

(** A non-empty table without a [value] column. *)
Definition no_value_rows : DataFrame :=
  mkDataFrame 1 [ ("country", [PStr "Germany"]) ].

(** A network on which the two population requests fail and the three age
    requests answer with one record each. *)
Definition flaky_network (url : string) (ps : params) : outcome :=
  if String.eqb url (url_of default_countries "SP.POP.TOTL.MA.IN")
  then RequestException "503 Server Error"
  else if String.eqb url (url_of default_countries "SP.POP.TOTL.FE.IN")
  then RequestException "Connection refused"
  else Body (api_body [api_record "US" "United States" (PNum 18.1)]).

(** A network on which every request fails. *)
Definition dead_network (url : string) (ps : params) : outcome :=
  RequestException "Connection refused".

(** ** The script as a whole *)

(** Lines 62-109 and 131-135: the fetcher is called with its default
    arguments and the values of the script are computed from the mapping
    it returns. *)
Definition main (requests_get : string -> params -> outcome)
    (pd_DataFrame : pyval -> result DataFrame)
    (parse_float : string -> option Q) : result (fetch_state * report) :=
  let* st := fetch_wb_demographic_data requests_get pd_DataFrame
               default_countries default_year in
  let* r := script parse_float (all_data st) in
  Ok (st, r).

(** ** Further readings used in the statements below *)

Definition is_number (v : pyval) : bool :=
  match v with
  | PNum _ => true
  | _ => false
  end.

Definition is_str (v : pyval) : bool :=
  match v with
  | PStr _ => true
  | _ => false
  end.

(** The indicator names of the success lines, and the failures reported,
    in the order printed. *)
Definition fetched_names (lines : list line) : list string :=
  omap (λ l, match l with
             | Fetched n => Some n
             | ErrorFetching _ _ => None
             end) lines.

Definition reported_failures (lines : list line) : list (string * string) :=
  omap (λ l, match l with
             | Fetched _ => None
             | ErrorFetching n e => Some (n, e)
             end) lines.

(** The requests that raise a [RequestException], with its text. *)
Definition failed_requests (requests_get : string -> params -> outcome)
    (countries year : string) (inds : list (string * string))
  : list (string * string) :=
  omap (λ ind, match answer requests_get countries year ind with
               | RequestException e => Some (ind.1, e)
               | _ => None
               end) inds.

(** The coercion of line 83 on one cell. *)
Definition coerce (parse_float : string -> option Q) (c : pyval) : pyval :=
  fillna0 (to_numeric parse_float c).

(** A table that the loop of lines 81-84 can process: it is empty, or it
    has a [value] column. *)
Definition processable (df : DataFrame) : Prop :=
  df_empty df = true \/ is_Some (alist_get "value" (df_columns df)).

(** A network on which the first request fails and the second answers with
    the JSON value [null]. *)
Definition null_body_network (url : string) (ps : params) : outcome :=
  if String.eqb url (url_of default_countries "SP.POP.TOTL.MA.IN")
  then RequestException "503 Server Error"
  else Body PNone.

(** A network on which only the last two requests answer with records. *)
Definition two_answers_network (url : string) (ps : params) : outcome :=
  if String.eqb url (url_of default_countries "SP.POP.1564.TO.ZS")
     || String.eqb url (url_of default_countries "SP.POP.65UP.TO.ZS")
  then Body (api_body [api_record "US" "United States" (PNum 18.1)])
  else RequestException "Connection refused".

(** Every list of the dictionary other than [countries] holds numbers
    only. *)
Definition numeric_fields (data : gmap string (list pyval)) : Prop :=
  forall k l,
    k <> "countries" -> data !! k = Some l ->
    Forall (λ v, is_number v = true) l.

(** Three tables of which the first has neither rows nor columns. *)
Definition empty_table : DataFrame := mkDataFrame 0 [].

Definition empty_first : list (string * DataFrame) :=
  [ ("male_pop", empty_table); ("female_pop", three_rows);
    ("age_0_14", one_row) ].

(** Three tables of which the last has no [value] column. *)
Definition value_missing : list (string * DataFrame) :=
  [ ("male_pop", three_rows); ("female_pop", three_rows);
    ("age_0_14", no_value_rows) ].

(** No non-empty table of the mapping is called [k]. *)
Definition unfetched (k : string) (wb_data : list (string * DataFrame))
  : Prop :=
  forall df, (k, df) ∈ wb_data -> df_empty df = true.

(** Three tables of which the first has a [country] column without rows,
    and three of which the first has a coded country without a name. *)
Definition rowless_country : DataFrame :=
  mkDataFrame 0 [ ("country", []); ("value", []) ].

Definition rowless_first : list (string * DataFrame) :=
  [ ("male_pop", rowless_country); ("female_pop", three_rows);
    ("age_0_14", one_row) ].

Definition nameless_country : DataFrame :=
  mkDataFrame 1 [ ("country", [PDict [("id", PStr "US")]]);
                  ("value", [PNum 163]) ].

Definition nameless_first : list (string * DataFrame) :=
  [ ("male_pop", nameless_country); ("female_pop", three_rows);
    ("age_0_14", one_row) ].

(** * Properties *)

Section Selection.

Variable parse_float : string -> option Q.

Lemma select_data_few (wb_data : list (string * DataFrame)) :
  length wb_data <= 2 ->
  select_data parse_float wb_data = Ok create_sample_demographic_data.
Proof.
  intros Hlen. unfold select_data.
  destruct (Nat.ltb_spec 2 (length wb_data)) as [Hlt | _]; [lia |].
  by rewrite andb_false_r.
Qed.

Lemma select_data_many (wb_data : list (string * DataFrame)) :
  2 < length wb_data ->
  select_data parse_float wb_data = process_wb_data parse_float wb_data.
Proof.
  intros Hlen. unfold select_data.
  destruct (Nat.ltb_spec 2 (length wb_data)) as [_ | Hge]; [| lia].
  destruct (Nat.eqb_spec (length wb_data) 0) as [H0 | _]; [lia | done].
Qed.

End Selection.

Section Fields.

Implicit Types (data : gmap string (list pyval)) (n : nat).

Lemma has_key_true k data :
  has_key k data = true <-> is_Some (data !! k).
Proof. unfold has_key. apply bool_decide_eq_true. Qed.

Lemma has_key_false k data :
  has_key k data = false <-> data !! k = None.
Proof.
  unfold has_key. rewrite bool_decide_eq_false. symmetry.
  apply eq_None_not_Some.
Qed.

Lemma age_field_priority k1 k2 dflt data n :
  age_field k1 k2 dflt data n
  = take n (first_present [k1; k2] (replicate n (PNum dflt)) data).
Proof.
  unfold age_field, data_get, constant_list. simpl.
  destruct (data !! k1); [done |]. by destruct (data !! k2).
Qed.

Lemma population_fields_both data n m f :
  data !! "male_population" = Some m ->
  data !! "female_population" = Some f ->
  population_fields data n = Ok (m, f).
Proof.
  intros Hm Hf. unfold population_fields, data_getitem.
  assert (has_key "male_population" data = true) as ->
    by (apply has_key_true; eauto).
  assert (has_key "female_population" data = true) as ->
    by (apply has_key_true; eauto).
  simpl. by rewrite Hm, Hf.
Qed.

Lemma population_fields_not_both data n :
  data !! "male_population" = None \/ data !! "female_population" = None ->
  population_fields data n
  = Ok (take n (first_present ["male_pop"] (replicate n (PNum 100)) data),
        take n (first_present ["female_pop"] (replicate n (PNum 100)) data)).
Proof.
  intros Hnone. unfold population_fields.
  assert (has_key "male_population" data
          && has_key "female_population" data = false) as ->.
  { apply andb_false_iff. rewrite !has_key_false. exact Hnone. }
  unfold data_get, constant_list. simpl.
  by destruct (data !! "male_pop"), (data !! "female_pop").
Qed.

End Fields.

(** Lines 99-109 on any dictionary.  Each age field is its sample key,
    else its fetched key, else the default.  The two population fields
    are guarded together: the sample keys are used when both are
    present; otherwise each field is read from "male_pop" or "female_pop"
    alone, with 100 per entry when that key is absent. *)
Lemma field_resolution (data : gmap string (list pyval)) (n : nat) :
  age_field "age_0_14_percent" "age_0_14" 20 data n
    = take n (first_present ["age_0_14_percent"; "age_0_14"]
                (replicate n (PNum 20)) data)
  /\ age_field "age_15_64_percent" "age_15_64" 65 data n
    = take n (first_present ["age_15_64_percent"; "age_15_64"]
                (replicate n (PNum 65)) data)
  /\ age_field "age_65_plus_percent" "age_65_plus" 15 data n
    = take n (first_present ["age_65_plus_percent"; "age_65_plus"]
                (replicate n (PNum 15)) data)
  /\ (forall m f,
        data !! "male_population" = Some m ->
        data !! "female_population" = Some f ->
        population_fields data n = Ok (m, f))
  /\ (data !! "male_population" = None
      \/ data !! "female_population" = None ->
      population_fields data n
      = Ok (take n (first_present ["male_pop"] (replicate n (PNum 100)) data),
            take n (first_present ["female_pop"]
                      (replicate n (PNum 100)) data)))
  /\ (data !! "male_population" = None ->
      data !! "male_pop" = None ->
      exists female,
        population_fields data n = Ok (replicate n (PNum 100), female)).
Proof.
  repeat split; try apply age_field_priority.
  - apply population_fields_both.
  - apply population_fields_not_both.
  - intros Hm Hp. eexists.
    rewrite population_fields_not_both by (by left).
    simpl. rewrite Hp. by rewrite take_replicate, Nat.min_id.
Qed.

(** The guard of line 99 shows on a dictionary that has one sample key of
    the population fields without the other, which neither the sample nor
    the processing branch builds (see [select_data_sample_keys_paired]):
    the lone key is not read. *)
Example lone_sample_key_is_not_read :
  lone_male_population !! "male_population" = Some [PNum 5]
  /\ population_fields lone_male_population 1 = Ok ([PNum 100], [PNum 100]).
Proof. split; reflexivity. Qed.

(** C3: when the fetcher returns the empty mapping the script runs on the
    sample data for its 8 countries: the record set has 8 entries, the
    average of the age 0-14 percentages is 18.1125 (18.11 to two places)
    and the average of the age 65+ percentages is 16.675 (16.68 to two
    places, rounding the half up). *)
Theorem empty_fetch_uses_sample (parse_float : string -> option Q) :
  exists r a0 a1 a2,
    script parse_float [] = Ok r
    /\ data r = create_sample_demographic_data
    /\ data r !! "countries"
       = Some (PStr <$> ["United States"; "China"; "India"; "Germany";
                         "Japan"; "Brazil"; "United Kingdom"; "France"])
    /\ num_countries r = 8
    /\ length (countries_short r) = 8
    /\ length (male_data r) = 8 /\ length (female_data r) = 8
    /\ length (age_0_14 r) = 8 /\ length (age_15_64 r) = 8
    /\ length (age_65_plus r) = 8
    /\ avg_age_dist r = [PNum a0; PNum a1; PNum a2]
    /\ (a0 == 18.1125)%Q /\ (a2 == 16.675)%Q
    /\ (Qabs (a0 - 18.11) <= 0.005)%Q /\ (Qabs (a2 - 16.68) <= 0.005)%Q.
Proof.
  do 4 eexists. split; [vm_compute; reflexivity |].
  repeat split; try reflexivity.
  all: vm_compute; congruence.
Qed.

Section Truncation.

Implicit Types (data : gmap string (list pyval)) (n : nat).

Lemma for_each_length {A B} (f : A -> result B) (l : list A) (k : list B) :
  for_each f l = Ok k -> length k = length l.
Proof.
  revert k. induction l as [| x l IH]; intros k; simpl.
  - by intros [= <-].
  - destruct (f x); simpl; [| done].
    destruct (for_each f l) as [ys |]; simpl; [| done].
    intros [= <-]. simpl. f_equal. by apply IH.
Qed.

Lemma truncate_all_lookup n data k :
  truncate_all n data !! k = take n <$> data !! k.
Proof. unfold truncate_all. apply lookup_fmap. Qed.

Lemma truncate_ok data cs :
  data !! "countries" = Some cs ->
  truncate data
  = Ok (Nat.min 8 (length cs), truncate_all (Nat.min 8 (length cs)) data).
Proof. intros Hcs. unfold truncate, data_getitem. by rewrite Hcs. Qed.

(** What a successful run of lines 91-135 has computed. *)
Lemma normalize_inv data0 r :
  normalize data0 = Ok r ->
  exists cs,
    data0 !! "countries" = Some cs
    /\ data r = truncate_all (Nat.min 8 (length cs)) data0
    /\ num_countries r = Nat.min 8 (length cs)
    /\ for_each shorten (take (Nat.min 8 (length cs)) cs)
       = Ok (countries_short r)
    /\ population_fields (data r) (num_countries r)
       = Ok (male_data r, female_data r)
    /\ age_0_14 r
       = age_field "age_0_14_percent" "age_0_14" 20
           (data r) (num_countries r)
    /\ age_15_64 r
       = age_field "age_15_64_percent" "age_15_64" 65
           (data r) (num_countries r)
    /\ age_65_plus r
       = age_field "age_65_plus_percent" "age_65_plus" 15
           (data r) (num_countries r).
Proof.
  unfold normalize. intros H.
  destruct (data0 !! "countries") as [cs |] eqn:Hcs.
  2: { unfold truncate, data_getitem in H. by rewrite Hcs in H. }
  exists cs. rewrite (truncate_ok _ _ Hcs) in H. simpl in H.
  unfold data_getitem in H at 1.
  rewrite truncate_all_lookup, Hcs in H. simpl in H.
  destruct (for_each shorten _) as [short |] eqn:Hshort; simpl in H; [| done].
  destruct (population_fields _ _) as [[m f] |] eqn:Hpop; simpl in H; [| done].
  destruct (np_mean _); simpl in H; [| done].
  destruct (np_mean _); simpl in H; [| done].
  destruct (np_mean _); simpl in H; [| done].
  injection H as <-. simpl. by repeat split.
Qed.

Lemma population_fields_length data n m f :
  (forall k l, data !! k = Some l -> length l <= n) ->
  population_fields data n = Ok (m, f) ->
  length m <= n /\ length f <= n.
Proof.
  intros Hbound. unfold population_fields.
  destruct (has_key "male_population" data
            && has_key "female_population" data).
  - unfold data_getitem.
    destruct (data !! "male_population") as [m' |] eqn:Hm; simpl; [| done].
    destruct (data !! "female_population") as [f' |] eqn:Hf; simpl; [| done].
    intros [= <- <-]. eauto.
  - intros [= <- <-]. rewrite !length_take. lia.
Qed.

(** The shape of the record set after a successful run. *)
Lemma normalize_lengths data0 cs r :
  data0 !! "countries" = Some cs ->
  normalize data0 = Ok r ->
  let n := Nat.min 8 (length cs) in
  data r = truncate_all n data0
  /\ data r !! "countries" = Some (take n cs)
  /\ length (countries_short r) = n
  /\ length (male_data r) <= n /\ length (female_data r) <= n
  /\ length (age_0_14 r) <= n /\ length (age_15_64 r) <= n
  /\ length (age_65_plus r) <= n.
Proof.
  intros Hcs Hr n.
  apply normalize_inv in Hr as (cs' & Hcs' & Hd & Hn & Hs & Hp & Ha).
  rewrite Hcs in Hcs'. injection Hcs' as <-. fold n in Hd, Hn, Hs.
  destruct Ha as (-> & -> & ->). split; [done |].
  split; [by rewrite Hd, truncate_all_lookup, Hcs |].
  split.
  { apply for_each_length in Hs. rewrite Hs, length_take. subst n. lia. }
  apply population_fields_length in Hp.
  - unfold age_field. rewrite !length_take, Hn. lia.
  - intros k l. rewrite Hd, truncate_all_lookup, Hn.
    destruct (data0 !! k); simpl; [| done].
    intros [= <-]. rewrite length_take. lia.
Qed.

End Truncation.

(** C4: for every data mapping with a [countries] list, the truncation
    count is min(8, number of countries) and every list of the mapping is
    replaced by its prefix of that length: at most 8 entries, at most as
    many as there are countries, in the original order.  Every list the
    script hands to the charts has at most that many entries, and the
    labels are exactly that many. *)
Theorem truncation_is_prefix
    (data0 : gmap string (list pyval)) (cs : list pyval) :
  data0 !! "countries" = Some cs ->
  let n := Nat.min 8 (length cs) in
  truncate data0 = Ok (n, truncate_all n data0)
  /\ (forall k, truncate_all n data0 !! k = None <-> data0 !! k = None)
  /\ (forall k l,
        data0 !! k = Some l ->
        truncate_all n data0 !! k = Some (take n l)
        /\ take n l `prefix_of` l
        /\ length (take n l) = Nat.min n (length l)
        /\ length (take n l) <= 8
        /\ length (take n l) <= length cs)
  /\ (forall r,
        normalize data0 = Ok r ->
        data r = truncate_all n data0
        /\ data r !! "countries" = Some (take n cs)
        /\ length (countries_short r) = n
        /\ length (male_data r) <= n /\ length (female_data r) <= n
        /\ length (age_0_14 r) <= n /\ length (age_15_64 r) <= n
        /\ length (age_65_plus r) <= n).
Proof.
  intros Hcs n. split; [by apply truncate_ok |]. split; [| split].
  - intros k. rewrite truncate_all_lookup. apply fmap_None.
  - intros k l Hk. rewrite truncate_all_lookup, Hk. simpl.
    split; [done |]. split; [apply prefix_take |].
    rewrite length_take. subst n. lia.
  - intros r Hr. by apply normalize_lengths.
Qed.

Lemma truncation_is_prefix_witness :
  truncate ten_countries = Ok (8, truncate_all 8 ten_countries)
  /\ truncate_all 8 ten_countries !! "male_pop"
     = Some (PNum <$> [1; 2; 3; 4; 5; 6; 7; 8]%Q).
Proof.
  assert (ten_countries !! "countries"
          = Some ((λ i : nat, PStr ("Country_" ++ pretty i)) <$> seq 1 10))
    as Hcs by reflexivity.
  destruct (truncation_is_prefix ten_countries _ Hcs) as (H1 & _ & H2 & _).
  split; [exact H1 |].
  destruct (H2 "male_pop" (PNum <$> [1; 2; 3; 4; 5; 6; 7; 8; 9; 10]%Q))
    as [H _]; [reflexivity | exact H].
Defined.

Section DataHasCountries.

Variable parse_float : string -> option Q.



End DataHasCountries.

(** C10: truncation never pads.  The count min(8, number of countries)
    comes from the [countries] list alone, and a list with fewer entries
    than that count is kept as it is, with its shorter length, in the
    truncated mapping and in the record set of a successful run; there
    are fetch results for which the lists of the record set have
    different lengths. *)
Theorem truncation_never_pads (parse_float : string -> option Q)
    (data0 : gmap string (list pyval)) (cs : list pyval)
    (k : string) (l : list pyval) :
  data0 !! "countries" = Some cs ->
  data0 !! k = Some l ->
  length l < Nat.min 8 (length cs) ->
  let n := Nat.min 8 (length cs) in
  truncate data0 = Ok (n, truncate_all n data0)
  /\ truncate_all n data0 !! k = Some l
  /\ (forall r,
        normalize data0 = Ok r ->
        data r !! k = Some l /\ length l < length (countries_short r))
  /\ (exists wb_data r,
        script parse_float wb_data = Ok r
        /\ length (countries_short r) = 3
        /\ length (male_data r) = 3
        /\ length (age_0_14 r) = 1).
Proof.
  intros Hcs Hk Hlen n.
  assert (truncate_all n data0 !! k = Some l) as Hkept.
  { rewrite truncate_all_lookup, Hk. simpl. f_equal. apply take_ge. lia. }
  split; [by apply truncate_ok |]. split; [done |]. split.
  - intros r Hr.
    destruct (normalize_lengths data0 cs r Hcs Hr) as (-> & _ & -> & _).
    by split.
  - exists three_tables. eexists. split; [vm_compute; reflexivity |].
    by repeat split.
Qed.

Lemma truncation_never_pads_witness :
  truncate_all 3 short_indicator !! "age_0_14" = Some [PNum 18.1].
Proof.
  assert (short_indicator !! "countries"
          = Some [PStr "United States"; PStr "China"; PStr "India"])
    as Hcs by reflexivity.
  assert (short_indicator !! "age_0_14" = Some [PNum 18.1])
    as Hk by reflexivity.
  assert (length [PNum 18.1]
          < Nat.min 8 (length [PStr "United States"; PStr "China";
                               PStr "India"]))
    as Hlen by (simpl; lia).
  destruct (truncation_never_pads parse_unsigned short_indicator _ _ _
              Hcs Hk Hlen) as (_ & H & _).
  exact H.
Defined.

Section Countries.

Implicit Types (df : DataFrame) (col : list pyval).

Lemma extract_countries_column df c0 rest :
  alist_get "country" (df_columns df) = Some (c0 :: rest) ->
  extract_countries df
  = if isinstance_dict c0
    then for_each (λ country, getitem_str country "value") (c0 :: rest)
    else Ok (c0 :: rest).
Proof.
  intros Hcol. unfold extract_countries, has_column, get_column.
  by rewrite Hcol.
Qed.

Lemma extract_countries_no_column df :
  alist_get "country" (df_columns df) = None ->
  extract_countries df
  = Ok ((λ i, PStr ("Country_" ++ pretty i)) <$> seq 1 (df_len df)).
Proof.
  intros Hcol. unfold extract_countries, has_column. rewrite Hcol.
  f_equal. rewrite <- fmap_S_seq, <- list_fmap_compose.
  apply list_fmap_ext. intros _ i _. simpl. by rewrite Nat.add_1_r.
Qed.

Lemma for_each_value_names col names :
  Forall2 (λ c name, exists kvs,
             c = PDict kvs /\ alist_get "value" kvs = Some name) col names ->
  for_each (λ country, getitem_str country "value") col = Ok names.
Proof.
  induction 1 as [| c name col names (kvs & -> & Hv) _ IH]; [done |].
  simpl. rewrite Hv. simpl. by rewrite IH.
Qed.

Lemma for_each_raises {A B} (f : A -> result B) (l : list A) :
  Exists (λ x, raises (f x)) l -> raises (for_each f l).
Proof.
  induction 1 as [x l Hx | x l _ IH]; simpl.
  - by destruct (f x).
  - destruct (f x); simpl; [| done]. by destruct (for_each f l).
Qed.

Lemma getitem_str_not_dict (c : pyval) k :
  isinstance_dict c = false -> raises (getitem_str c k).
Proof. by destruct c. Qed.

(** The loop over the tables writes under the indicator names only. *)
Lemma fill_indicators_other_key parse_float items
    (data d : gmap string (list pyval)) k :
  k ∉ items.*1 ->
  fill_indicators parse_float items data = Ok d ->
  d !! k = data !! k.
Proof.
  revert data. induction items as [| [name df'] items IH]; intros data; simpl.
  - by intros _ [= <-].
  - intros [Hne Hnotin]%not_elem_of_cons.
    destruct (negb (df_empty df')); [| by apply IH].
    destruct (indicator_values parse_float df') as [vs |]; simpl; [| done].
    intros Hfill. rewrite (IH _ Hnotin Hfill). by apply lookup_insert_ne.
Qed.

End Countries.

(** C5: country resolution on the first table is a three-way split.  A
    [country] column of code-and-name structures gives the names found
    under "value"; a [country] column of plain strings is used as it is;
    without a [country] column the names are "Country_1", "Country_2",
    ..., one per row.  The table consulted is the first one of the fetched
    mapping, and the names it gives are stored under [countries]. *)
Theorem country_resolution (df : DataFrame) :
  (forall col names,
     alist_get "country" (df_columns df) = Some col ->
     col <> [] ->
     Forall2 (λ c name, exists kvs,
                c = PDict kvs /\ alist_get "value" kvs = Some name)
       col names ->
     extract_countries df = Ok names)
  /\ (forall col,
        alist_get "country" (df_columns df) = Some col ->
        col <> [] ->
        Forall (λ c, exists s, c = PStr s) col ->
        extract_countries df = Ok col)
  /\ (alist_get "country" (df_columns df) = None ->
      exists names,
        extract_countries df = Ok names
        /\ length names = df_len df
        /\ forall i, i < df_len df ->
             names !! i = Some (PStr ("Country_" ++ pretty (S i))))
  /\ (forall parse_float indicator_name rest d,
        "countries" ∉ indicator_name :: rest.*1 ->
        process_wb_data parse_float ((indicator_name, df) :: rest) = Ok d ->
        exists names,
          extract_countries df = Ok names /\ d !! "countries" = Some names).
Proof.
  split; [| split; [| split]].
  4: { intros parse_float name rest d Hfresh. unfold process_wb_data.
       cbn [bind]. destruct (extract_countries df) as [names |]; [| done].
       cbn [bind]. intros Hfill. exists names. split; [done |].
       rewrite (fill_indicators_other_key _ ((name, df) :: rest) _ _ _
                  Hfresh Hfill).
       apply lookup_singleton_eq. }
  - intros [| c0 rest] names Hcol Hne Hall; [done |].
    rewrite (extract_countries_column _ _ _ Hcol).
    pose proof Hall as Hall'.
    apply Forall2_cons_inv_l in Hall' as (name & names' & (kvs & -> & _) & _ & _).
    by apply for_each_value_names.
  - intros [| c0 rest] Hcol Hne Hall; [done |].
    rewrite (extract_countries_column _ _ _ Hcol).
    apply Forall_cons in Hall as [[s ->] _]. done.
  - intros Hcol. eexists. split; [by apply extract_countries_no_column |].
    split; [by rewrite length_fmap, length_seq |].
    intros i Hi. rewrite list_lookup_fmap, lookup_seq_lt by done. done.
Qed.

Lemma country_resolution_witness :
  extract_countries three_rows
    = Ok [PStr "United States"; PStr "China"; PStr "India"]
  /\ extract_countries plain_rows = Ok [PStr "Germany"; PStr "Japan"]
  /\ exists names,
       extract_countries no_country_rows = Ok names
       /\ length names = 2
       /\ forall i, i < 2 ->
            names !! i = Some (PStr ("Country_" ++ pretty (S i))).
Proof.
  split; [| split].
  - destruct (country_resolution three_rows) as (Hcoded & _).
    eapply Hcoded; [reflexivity | done |].
    repeat constructor; eexists; split; reflexivity.
  - destruct (country_resolution plain_rows) as (_ & Hplain & _).
    eapply Hplain; [reflexivity | done |].
    repeat constructor; eexists; reflexivity.
  - destruct (country_resolution no_country_rows) as (_ & _ & Habsent & _).
    apply Habsent. reflexivity.
Defined.

(** C9: the branch is chosen by the first entry of the column alone.  When
    the first entry is a dict, every entry is indexed by "value", so the
    extraction raises as soon as a later entry is not a dict; when the
    first entry is not a dict, all entries are used as they are. *)
Theorem first_entry_decides (df : DataFrame) (c0 : pyval) (rest : list pyval) :
  alist_get "country" (df_columns df) = Some (c0 :: rest) ->
  (isinstance_dict c0 = true ->
     extract_countries df
     = for_each (λ country, getitem_str country "value") (c0 :: rest)
     /\ (Exists (λ c, isinstance_dict c = false) rest ->
         raises (extract_countries df)))
  /\ (isinstance_dict c0 = false -> extract_countries df = Ok (c0 :: rest)).
Proof.
  intros Hcol. rewrite (extract_countries_column _ _ _ Hcol).
  split; intros ->; [| done]. split; [done |].
  intros Hmixed. apply for_each_raises. right.
  eapply Exists_impl; [exact Hmixed |].
  intros c Hc. by apply getitem_str_not_dict.
Qed.

Lemma first_entry_decides_witness :
  raises (extract_countries coded_then_plain)
  /\ extract_countries plain_then_coded
     = Ok [ PStr "China";
            PDict [("id", PStr "US"); ("value", PStr "United States")] ].
Proof.
  split.
  - destruct (first_entry_decides coded_then_plain _ _ eq_refl)
      as (Hdict & _).
    apply Hdict; [reflexivity |]. left. reflexivity.
  - destruct (first_entry_decides plain_then_coded _ _ eq_refl)
      as (_ & Hplain).
    apply Hplain. reflexivity.
Defined.

Section Labels.

Lemma chars_app (s t : string) : chars (s ++ t) = chars s ++ chars t.
Proof. induction s as [| c s IH]; simpl; [done |]. by rewrite <- IH. Qed.

Lemma length_chars (s : string) : length (chars s) = String.length s.
Proof. induction s as [| c s IH]; simpl; [done |]. by rewrite IH. Qed.

Lemma chars_substring (n : nat) (s : string) :
  chars (String.substring 0 n s) = take n (chars s).
Proof.
  revert s. induction n as [| n IH]; intros [| c s]; simpl; try done.
  by rewrite IH.
Qed.

Lemma chars_inj (s t : string) : chars s = chars t -> s = t.
Proof.
  revert t. induction s as [| c s IH]; intros [| d t]; simpl; try done.
  intros [= -> Hst]. f_equal. by apply IH.
Qed.

Lemma shorten_long (s : string) :
  12 < String.length s ->
  shorten (PStr s) = Ok (PStr (String.substring 0 12 s ++ "...")).
Proof.
  intros Hlen. unfold shorten. simpl.
  by destruct (Nat.ltb_spec 12 (String.length s)); [| lia].
Qed.

Lemma shorten_short (s : string) :
  String.length s <= 12 -> shorten (PStr s) = Ok (PStr s).
Proof.
  intros Hlen. unfold shorten. simpl.
  by destruct (Nat.ltb_spec 12 (String.length s)); [lia |].
Qed.

Lemma for_each_Forall2 {A B} (f : A -> result B) (l : list A) (k : list B) :
  for_each f l = Ok k -> Forall2 (λ x y, f x = Ok y) l k.
Proof.
  revert k. induction l as [| x l IH]; intros k; simpl.
  - intros [= <-]. constructor.
  - destruct (f x) as [y |] eqn:Hx; simpl; [| done].
    destruct (for_each f l) as [ys |]; simpl; [| done].
    intros [= <-]. constructor; [done |]. by apply IH.
Qed.

End Labels.

(** C6: the chart label of a country name longer than 12 characters is
    its first 12 characters followed by "...", and the label of any other
    name is the name itself.  Labels are a list of their own: after a
    run, [data['countries']] still holds the (truncated) original names,
    and each label is the shortening of the name at the same position. *)
Theorem label_shortening :
  (forall s : string,
     exists label,
       shorten (PStr s) = Ok (PStr label)
       /\ (12 < String.length s ->
           chars label = take 12 (chars s) ++ chars "..."
           /\ String.length label = 15)
       /\ (String.length s <= 12 -> label = s))
  /\ (forall data0 cs r,
        data0 !! "countries" = Some cs ->
        normalize data0 = Ok r ->
        data r !! "countries" = Some (take (Nat.min 8 (length cs)) cs)
        /\ Forall2 (λ country label, shorten country = Ok label)
             (take (Nat.min 8 (length cs)) cs) (countries_short r)).
Proof.
  split.
  - intros s. destruct (Nat.le_gt_cases (String.length s) 12) as [Hle | Hgt].
    + exists s. split; [by apply shorten_short |]. split; [lia | done].
    + eexists. split; [by apply shorten_long |]. split; [| lia].
      intros _.
      assert (chars (String.substring 0 12 s ++ "...")
              = take 12 (chars s) ++ chars "...") as Hchars
        by (by rewrite chars_app, chars_substring).
      split; [done |].
      rewrite <- length_chars, Hchars, length_app, length_take, length_chars.
      rewrite Nat.min_l by lia. reflexivity.
  - intros data0 cs r Hcs Hr.
    destruct (normalize_lengths data0 cs r Hcs Hr) as (_ & Hkept & _).
    split; [done |].
    apply normalize_inv in Hr as (cs' & Hcs' & _ & _ & Hshort & _).
    rewrite Hcs in Hcs'. injection Hcs' as <-.
    by apply for_each_Forall2.
Qed.

Lemma label_shortening_witness :
  (exists label,
     shorten (PStr "United Kingdom") = Ok (PStr label)
     /\ chars label = take 12 (chars "United Kingdom") ++ chars "..."
     /\ String.length label = 15)
  /\ exists label, shorten (PStr "China") = Ok (PStr label) /\ label = "China".
Proof.
  destruct label_shortening as [Hlabel _]. split.
  - destruct (Hlabel "United Kingdom") as (label & Hs & Hlong & _).
    exists label. split; [exact Hs |]. apply Hlong. simpl. lia.
  - destruct (Hlabel "China") as (label & Hs & _ & Hshort).
    exists label. split; [exact Hs |]. apply Hshort. simpl. lia.
Defined.

Section Coercion.

Variable parse_float : string -> option Q.

(** The coerced cell is always a number. *)
Lemma coerce_cell (c : pyval) :
  exists q,
    fillna0 (to_numeric parse_float c) = PNum q
    /\ (forall p, parses_as parse_float c p -> q = p)
    /\ ((forall p, ~ parses_as parse_float c p) -> q = 0%Q).
Proof.
  destruct c as [| b | p | | s | l | kvs]; simpl;
    try (exists 0%Q; by repeat split).
  - eexists. split; [done |]. split; [by intros p -> |].
    intros Hno. by destruct (Hno _ eq_refl).
  - exists p. split; [done |]. split; [by intros q -> |].
    intros Hno. by destruct (Hno _ eq_refl).
  - destruct (parse_float s) as [q |] eqn:Hs.
    + exists q. split; [done |]. split; [by intros p [= <-] |].
      intros Hno. by destruct (Hno _ eq_refl).
    + exists 0%Q. by repeat split.
Qed.

Lemma indicator_values_ok (df : DataFrame) (col : list pyval) :
  alist_get "value" (df_columns df) = Some col ->
  indicator_values parse_float df
  = Ok ((λ c, fillna0 (to_numeric parse_float c)) <$> col).
Proof. intros Hcol. unfold indicator_values, get_column. by rewrite Hcol. Qed.

(** Without a [value] column the lookup [df['value']] raises. *)
Lemma indicator_values_no_column (df : DataFrame) :
  alist_get "value" (df_columns df) = None ->
  indicator_values parse_float df = Raise (KeyError "value").
Proof. intros Hcol. unfold indicator_values, get_column. by rewrite Hcol. Qed.

End Coercion.

(** C7: for a non-empty fetched table, the coercion of its [value] column
    is total: it returns one number per entry, the number the entry
    parses as when it parses as one, and 0 when it parses as none (a
    missing entry included), and that list is stored under the
    indicator's name. *)
Theorem numeric_coercion_total (parse_float : string -> option Q)
    (df : DataFrame) (col : list pyval) :
  df_empty df = false ->
  alist_get "value" (df_columns df) = Some col ->
  exists values,
    indicator_values parse_float df = Ok values
    /\ length values = length col
    /\ (forall i c,
          col !! i = Some c ->
          exists q,
            values !! i = Some (PNum q)
            /\ (forall p, parses_as parse_float c p -> q = p)
            /\ ((forall p, ~ parses_as parse_float c p) -> q = 0%Q))
    /\ (forall indicator_name data,
          fill_indicators parse_float [(indicator_name, df)] data
          = Ok (<[indicator_name := values]> data)).
Proof.
  intros Hne Hcol. eexists. split; [by apply indicator_values_ok |].
  split; [by rewrite length_fmap |]. split.
  - intros i c Hi. destruct (coerce_cell parse_float c) as (q & Hq & Hparse).
    exists q. split; [| done]. by rewrite list_lookup_fmap, Hi; simpl; rewrite Hq.
  - intros name data. simpl. rewrite Hne. simpl.
    by rewrite (indicator_values_ok _ _ _ Hcol).
Qed.

Lemma numeric_coercion_total_witness :
  exists values,
    indicator_values parse_unsigned three_rows = Ok values
    /\ length values = 3
    /\ exists q, values !! 2 = Some (PNum q) /\ q = inject_Z 717.
Proof.
  destruct (numeric_coercion_total parse_unsigned three_rows
              [PNum 163; PNone; PStr "717"] eq_refl eq_refl)
    as (values & Hv & Hlen & Hcells & _).
  exists values. split; [exact Hv |]. split; [exact Hlen |].
  destruct (Hcells 2 (PStr "717") eq_refl) as (q & Hq & Hparse & _).
  exists q. split; [exact Hq |]. apply Hparse. reflexivity.
Defined.

Section AssociationLists.

Context {V : Type}.
Implicit Types (d : list (string * V)) (k : string) (v : V).

Lemma alist_get_app k d1 d2 :
  alist_get k (d1 ++ d2)
  = match alist_get k d1 with
    | Some v => Some v
    | None => alist_get k d2
    end.
Proof.
  induction d1 as [| [k' v'] d1 IH]; simpl; [done |].
  by destruct (String.eqb k k').
Qed.

Lemma alist_set_fresh k v d :
  alist_get k d = None -> alist_set k v d = d ++ [(k, v)].
Proof.
  induction d as [| [k' v'] d IH]; simpl; [done |].
  destruct (String.eqb k k'); [done |]. intros H. by rewrite IH.
Qed.

Lemma alist_get_Some_elem k v d : alist_get k d = Some v -> (k, v) ∈ d.
Proof.
  induction d as [| [k' v'] d IH]; simpl; [done |].
  destruct (String.eqb_spec k k') as [-> | _].
  - intros [= ->]. left.
  - intros H. right. by apply IH.
Qed.

Lemma alist_get_None_keys k d : alist_get k d = None <-> k ∉ d.*1.
Proof.
  induction d as [| [k' v'] d IH]; simpl.
  - split; [intros _; apply not_elem_of_nil | done].
  - rewrite not_elem_of_cons.
    destruct (String.eqb_spec k k') as [-> | Hne]; [| by rewrite IH; tauto].
    split; [done | by intros [? _]].
Qed.

Lemma NoDup_keys_functional d k v1 v2 :
  NoDup d.*1 -> (k, v1) ∈ d -> (k, v2) ∈ d -> v1 = v2.
Proof.
  induction d as [| [k' v'] d IH]; [by intros _ ?%elem_of_nil |].
  rewrite fmap_cons. intros [Hnotin Hnodup]%NoDup_cons H1 H2.
  apply elem_of_cons in H1 as [H1 | H1], H2 as [H2 | H2].
  - congruence.
  - injection H1 as <- <-. destruct Hnotin.
    apply list_elem_of_fmap. by exists (k, v2).
  - injection H2 as <- <-. destruct Hnotin.
    apply list_elem_of_fmap. by exists (k, v1).
  - by apply IH.
Qed.

End AssociationLists.

Section FetcherProofs.

Variable requests_get : string -> params -> outcome.
Variable pd_DataFrame : pyval -> result DataFrame.
Variables countries year : string.

#[local] Abbreviation ans := (answer requests_get countries year).
#[local] Abbreviation req := (request_of countries year).
#[local] Abbreviation tab :=
  (table_of requests_get pd_DataFrame countries year).
#[local] Abbreviation lns := (lines_of requests_get countries year).
#[local] Abbreviation shaped := (well_shaped pd_DataFrame).
#[local] Abbreviation ok_with :=
  (succeeded_with requests_get pd_DataFrame countries year).
#[local] Abbreviation step :=
  (fetch_indicator requests_get pd_DataFrame countries year).
#[local] Abbreviation loop :=
  (fetch_loop requests_get pd_DataFrame countries year).

(** One iteration, when nothing but a [RequestException] is raised. *)
Lemma fetch_indicator_spec (st : fetch_state) (ind : string * string) :
  shaped (ans ind) ->
  alist_get ind.1 (all_data st) = None ->
  step st ind
  = Ok (mkFetch (all_data st ++ option_list (tab ind))
                (printed st ++ lns ind)
                (issued st ++ [req ind])).
Proof.
  destruct ind as [name code].
  unfold well_shaped, table_of, lines_of, answer, request_of,
    fetch_indicator.
  simpl.
  intros Hshape Hfresh.
  destruct (requests_get _ _) as [e | e | body]; [| done |].
  - simpl. by rewrite !app_nil_r.
  - destruct Hshape as [[l ->] Hdf].
    destruct l as [| meta [| d1 l]]; simpl; try by rewrite !app_nil_r.
    simpl in Hdf. destruct (truthy d1); simpl; [| by rewrite !app_nil_r].
    destruct (Hdf d1 eq_refl) as [df ->]. simpl.
    by rewrite alist_set_fresh.
Qed.

Lemma table_of_name (ind : string * string) (entry : string * DataFrame) :
  tab ind = Some entry -> entry.1 = ind.1.
Proof.
  unfold table_of. destruct (payload _); [| done].
  destruct (pd_DataFrame _); [| done]. by intros [= <-].
Qed.

Lemma table_of_Some (ind : string * string) (df : DataFrame) :
  tab ind = Some (ind.1, df) <-> ok_with ind df.
Proof.
  unfold table_of, succeeded_with. split.
  - destruct (payload _) as [d |]; [| done].
    destruct (pd_DataFrame d) eqn:Hd; [| done]. intros [= <-]. eauto.
  - intros (d & -> & ->). done.
Qed.

(** The whole loop: every indicator is requested, in order, and each adds
    its table and its lines. *)
Lemma fetch_loop_spec (inds : list (string * string)) (st : fetch_state) :
  Forall (λ ind, shaped (ans ind)) inds ->
  NoDup inds.*1 ->
  Forall (λ ind, alist_get ind.1 (all_data st) = None) inds ->
  loop st inds
  = Ok (mkFetch (all_data st ++ omap tab inds)
                (printed st ++ (inds ≫= lns))
                (issued st ++ (req <$> inds))).
Proof.
  revert st. induction inds as [| ind inds IH]; intros st Hshape Hnodup Hfresh.
  - simpl. rewrite !app_nil_r. by destruct st.
  - apply Forall_cons in Hshape as [Hind Hshape].
    apply Forall_cons in Hfresh as [Hind_fresh Hfresh].
    rewrite fmap_cons in Hnodup. apply NoDup_cons in Hnodup as [Hnotin Hnodup].
    cbn [fetch_loop]. rewrite fetch_indicator_spec by done.
    cbn [bind]. rewrite IH; [| done | done |].
    + cbn [all_data printed issued omap list_omap mbind list_bind fmap list_fmap].
      f_equal. rewrite <- !(assoc_L (++)). f_equal.
      by destruct (tab ind).
    + cbn [all_data]. eapply Forall_impl; [apply Forall_and; split;
        [exact Hfresh | apply Forall_forall; intros x Hx; exact Hx] |].
      intros ind' [Hget Hin]. rewrite alist_get_app, Hget.
      destruct (tab ind) as [entry |] eqn:Htab; [| done].
      apply table_of_name in Htab. destruct entry as [k v]. simpl in *.
      destruct (String.eqb_spec ind'.1 k) as [Heq | _]; [| done].
      destruct Hnotin. rewrite <- Htab, <- Heq.
      apply list_elem_of_fmap. eauto.
Qed.

(** The entries of the mapping built from indicators with distinct
    names. *)
Lemma tables_lookup (inds : list (string * string)) name df :
  NoDup inds.*1 ->
  alist_get name (omap tab inds) = Some df
  <-> exists code, (name, code) ∈ inds /\ ok_with (name, code) df.
Proof.
  induction inds as [| [n c] inds IH]; intros Hnodup.
  - simpl. split; [done |]. intros (code & Hin & _).
    by apply elem_of_nil in Hin.
  - rewrite fmap_cons in Hnodup. apply NoDup_cons in Hnodup as [Hnotin Hnodup].
    specialize (IH Hnodup). cbn [omap list_omap].
    destruct (tab (n, c)) as [[k v] |] eqn:Htab.
    + pose proof (table_of_name _ _ Htab) as Hk. simpl in Hk. subst k.
      cbn [alist_get]. destruct (String.eqb_spec name n) as [-> | Hne].
      * split.
        -- intros [= ->]. exists c. split; [left |].
           by apply (table_of_Some (n, c)).
        -- intros (code & Hin & Hok). apply elem_of_cons in Hin as [[= ->] | Hin].
           ++ apply (table_of_Some (n, c)) in Hok. congruence.
           ++ destruct Hnotin. apply list_elem_of_fmap. by exists (n, code).
      * rewrite IH. split; intros (code & Hin & Hok); exists code.
        -- split; [by right | done].
        -- apply elem_of_cons in Hin as [[= -> _] | Hin]; done.
    + rewrite IH. split; intros (code & Hin & Hok); exists code.
      * split; [by right | done].
      * apply elem_of_cons in Hin as [[= -> ->] | Hin]; [| done].
        apply (table_of_Some (n, c)) in Hok. congruence.
Qed.

End FetcherProofs.

Lemma INDICATORS_NoDup : NoDup INDICATORS.*1.
Proof. apply (bool_decide_unpack _). by vm_compute. Qed.

(** C8: the fetcher tolerates the failure of single requests.  When every
    request either fails with a [RequestException] or answers with a JSON
    array from whose payload the table can be built, the fetcher returns:
    all five requests have been issued in order, the mapping holds exactly
    the indicators whose request succeeded with a non-empty payload, a
    failed request has left its failure line in the output and no entry
    in the mapping, and the mapping is empty when every request failed. *)
Theorem fetcher_tolerates_partial_failure
    (requests_get : string -> params -> outcome)
    (pd_DataFrame : pyval -> result DataFrame) (countries year : string) :
  (forall ind,
     ind ∈ INDICATORS ->
     well_shaped pd_DataFrame (answer requests_get countries year ind)) ->
  exists st,
    fetch_wb_demographic_data requests_get pd_DataFrame countries year = Ok st
    /\ issued st = request_of countries year <$> INDICATORS
    /\ all_data st
       = omap (table_of requests_get pd_DataFrame countries year) INDICATORS
    /\ printed st = INDICATORS ≫= lines_of requests_get countries year
    /\ (forall name df,
          alist_get name (all_data st) = Some df
          <-> exists code,
                (name, code) ∈ INDICATORS
                /\ succeeded_with requests_get pd_DataFrame countries year
                     (name, code) df)
    /\ (forall name code e,
          (name, code) ∈ INDICATORS ->
          answer requests_get countries year (name, code)
          = RequestException e ->
          alist_get name (all_data st) = None
          /\ ErrorFetching name e ∈ printed st)
    /\ ((forall ind,
           ind ∈ INDICATORS ->
           exists e,
             answer requests_get countries year ind = RequestException e) ->
        all_data st = []).
Proof.
  intros Hshape. eexists. split.
  { unfold fetch_wb_demographic_data. apply fetch_loop_spec.
    - by apply Forall_forall.
    - exact INDICATORS_NoDup.
    - by apply Forall_forall. }
  cbn [all_data printed issued app].
  assert (forall name df,
            alist_get name
              (omap (table_of requests_get pd_DataFrame countries year)
                 INDICATORS) = Some df
            <-> exists code,
                  (name, code) ∈ INDICATORS
                  /\ succeeded_with requests_get pd_DataFrame countries year
                       (name, code) df) as Hlookup.
  { intros name df. apply tables_lookup, INDICATORS_NoDup. }
  assert (forall name code e,
            (name, code) ∈ INDICATORS ->
            answer requests_get countries year (name, code)
            = RequestException e ->
            alist_get name
              (omap (table_of requests_get pd_DataFrame countries year)
                 INDICATORS) = None) as Hfailed.
  { intros name code e Hin Hans.
    destruct (alist_get name _) as [df |] eqn:Hget; [| done].
    apply Hlookup in Hget as (code' & Hin' & d & Hpay & _).
    assert (code = code') as <-
      by (eapply NoDup_keys_functional; [exact INDICATORS_NoDup | done ..]).
    by rewrite Hans in Hpay. }
  split; [done |]. split; [done |]. split; [done |]. split; [done |].
  split.
  - intros name code e Hin Hans. split; [by eapply Hfailed |].
    apply list_elem_of_bind. exists (name, code). split; [| done].
    unfold lines_of. rewrite Hans. simpl. left.
  - intros Hall.
    destruct (omap _ INDICATORS) as [| [name df] rest]; [done |].
    assert (alist_get name ((name, df) :: rest) = Some df) as Hget
      by (simpl; by rewrite String.eqb_refl).
    apply Hlookup in Hget as (code & Hin & d & Hpay & _).
    destruct (Hall _ Hin) as [e Hans]. by rewrite Hans in Hpay.
Qed.

Lemma fetcher_tolerates_partial_failure_witness :
  (exists st,
     fetch_wb_demographic_data flaky_network frame_of_records
       default_countries default_year = Ok st
     /\ (all_data st).*1 = ["age_0_14"; "age_15_64"; "age_65_plus"]
     /\ printed st
        = [ ErrorFetching "male_pop" "503 Server Error";
            ErrorFetching "female_pop" "Connection refused";
            Fetched "age_0_14"; Fetched "age_15_64"; Fetched "age_65_plus" ]
     /\ length (issued st) = 5)
  /\ exists st,
       fetch_wb_demographic_data dead_network frame_of_records
         default_countries default_year = Ok st
       /\ all_data st = [].
Proof.
  split.
  - destruct (fetcher_tolerates_partial_failure flaky_network frame_of_records
                default_countries default_year)
      as (st & Hrun & Hissued & Hdata & Hprinted & _).
    + apply Forall_forall. repeat constructor; try exact I.
      all: try (by eexists).
      all: intros d Hd; vm_compute in Hd; injection Hd as <-;
        eexists; vm_compute; reflexivity.
    + exists st. split; [exact Hrun |].
      rewrite Hdata, Hprinted, Hissued. by vm_compute.
  - destruct (fetcher_tolerates_partial_failure dead_network frame_of_records
                default_countries default_year)
      as (st & Hrun & _ & _ & _ & _ & _ & Hempty).
    + intros ind _. exact I.
    + exists st. split; [exact Hrun |]. apply Hempty.
      intros ind _. by eexists.
Defined.


Example no_value_column_raises :
  indicator_values parse_unsigned no_value_rows = Raise (KeyError "value").
Proof. reflexivity. Qed.

Example render_failure_line :
  render (ErrorFetching "male_pop" "503 Server Error")
  = "✗ Error fetching male_pop: 503 Server Error".
Proof. reflexivity. Qed.

(** * Further properties of the code *)

Section Averages.

Lemma numbers_are_PNum (l : list pyval) :
  Forall (λ v, is_number v = true) l -> exists qs, l = PNum <$> qs.
Proof.
  induction 1 as [| v l Hv _ [qs ->]]; [by exists [] |].
  destruct v as [| | q | | | |]; try done. by exists (q :: qs).
Qed.

Lemma np_sum_numbers (acc : Q) (qs : list Q) :
  np_sum (Some acc) (PNum <$> qs) = Ok (Some (fold_left Qplus qs acc)).
Proof.
  revert acc. induction qs as [| q qs IH]; intros acc; simpl; [done |].
  apply IH.
Qed.

Lemma sum_between (lo hi acc : Q) (qs : list Q) :
  Forall (λ q, lo <= q <= hi)%Q qs ->
  (acc + inject_Z (Z.of_nat (length qs)) * lo <= fold_left Qplus qs acc
   /\ fold_left Qplus qs acc
      <= acc + inject_Z (Z.of_nat (length qs)) * hi)%Q.
Proof.
  intros Hall. revert acc.
  induction Hall as [| q qs [Hlo Hhi] _ IH]; intros acc.
  - cbn [fold_left length]. change (inject_Z (Z.of_nat 0)) with 0%Q.
    split; lra.
  - cbn [fold_left length]. destruct (IH (acc + q)%Q) as [IHlo IHhi].
    rewrite Nat2Z.inj_succ, <- Z.add_1_r, inject_Z_plus.
    change (inject_Z 1) with 1%Q.
    set (n := inject_Z _) in *. set (sum := fold_left _ _ _) in *.
    split; nra.
Qed.

Lemma np_mean_numbers (q : Q) (qs : list Q) :
  np_mean (PNum <$> (q :: qs))
  = Ok (PNum (fold_left Qplus (q :: qs) 0
              / inject_Z (Z.of_nat (length (q :: qs))))%Q).
Proof.
  unfold np_mean. rewrite np_sum_numbers. cbn [bind].
  by rewrite length_fmap.
Qed.

Lemma np_mean_between (lo hi : Q) (q : Q) (qs : list Q) :
  Forall (λ x, lo <= x <= hi)%Q (q :: qs) ->
  exists m, np_mean (PNum <$> (q :: qs)) = Ok (PNum m) /\ (lo <= m <= hi)%Q.
Proof.
  intros Hall. eexists. split; [apply np_mean_numbers |].
  destruct (sum_between lo hi 0 (q :: qs) Hall) as [Hlo Hhi].
  assert (0 < inject_Z (Z.of_nat (length (q :: qs))))%Q as Hpos.
  { change 0%Q with (inject_Z 0). rewrite <- Zlt_Qlt. simpl. lia. }
  split.
  - apply Qle_shift_div_l; [done |]. lra.
  - apply Qle_shift_div_r; [done |]. lra.
Qed.

Lemma np_mean_replicate (v : Q) (n : nat) :
  0 < n ->
  exists m, np_mean (replicate n (PNum v)) = Ok (PNum m) /\ (m == v)%Q.
Proof.
  intros Hn. destruct n as [| n]; [lia |].
  destruct (np_mean_between v v v (replicate n v)) as (m & Hm & Hlo & Hhi).
  - apply Forall_cons. split; [lra |].
    apply Forall_forall. intros x Hx%elem_of_replicate. destruct Hx as [-> _]. lra.
  - exists m. split; [| lra].
    rewrite <- Hm. f_equal. simpl. f_equal. by rewrite fmap_replicate.
Qed.

End Averages.

Section FetcherInvariants.

Variable requests_get : string -> params -> outcome.
Variable pd_DataFrame : pyval -> result DataFrame.
Variables countries year : string.

#[local] Abbreviation ans' := (answer requests_get countries year).
#[local] Abbreviation req' := (request_of countries year).
#[local] Abbreviation step' :=
  (fetch_indicator requests_get pd_DataFrame countries year).
#[local] Abbreviation loop' :=
  (fetch_loop requests_get pd_DataFrame countries year).
#[local] Abbreviation failed' := (failed_requests requests_get countries year).

(** What one iteration that returns has done, whatever the network. *)
Lemma fetch_indicator_inv (st st' : fetch_state) (ind : string * string) :
  step' st ind = Ok st' ->
  issued st' = issued st ++ [req' ind]
  /\ ((exists e,
         ans' ind = RequestException e
         /\ all_data st' = all_data st
         /\ printed st' = printed st ++ [ErrorFetching ind.1 e])
      \/ ((forall e, ans' ind <> RequestException e)
          /\ all_data st' = all_data st
          /\ printed st' = printed st)
      \/ ((forall e, ans' ind <> RequestException e)
          /\ exists df,
               all_data st' = alist_set ind.1 df (all_data st)
               /\ printed st' = printed st ++ [Fetched ind.1])).
Proof.
  destruct ind as [name code]. unfold fetch_indicator, answer, request_of.
  cbn [fst snd].
  destruct (requests_get _ _) as [e | e | body]; [| done |].
  - intros [= <-]. split; [done |]. left. by exists e.
  - destruct (py_len body) as [n |]; cbn [bind]; [| done].
    destruct (Nat.ltb 1 n).
    2: { intros [= <-]. split; [done |]. right. left. done. }
    destruct (getitem_int body 1) as [d1 |]; cbn [bind]; [| done].
    destruct (truthy d1).
    2: { intros [= <-]. split; [done |]. right. left. done. }
    destruct (pd_DataFrame d1) as [df |]; cbn [bind]; [| done].
    intros [= <-]. split; [done |]. right. right. split; [done |].
    by exists df.
Qed.

Lemma failed_requests_cons (ind : string * string) inds :
  failed' (ind :: inds)
  = match ans' ind with
    | RequestException e => [(ind.1, e)]
    | _ => []
    end ++ failed' inds.
Proof.
  unfold failed_requests. cbn [omap list_omap]. by destruct (ans' ind).
Qed.

(** The loop, when it returns: the entries added are for some of the
    indicators, in their order; the success lines name them; the failure
    lines report the requests that raised a [RequestException]. *)
Lemma fetch_loop_inv (inds : list (string * string)) (st st' : fetch_state) :
  loop' st inds = Ok st' ->
  NoDup inds.*1 ->
  Forall (λ ind, alist_get ind.1 (all_data st) = None) inds ->
  exists added lines,
    all_data st' = all_data st ++ added
    /\ printed st' = printed st ++ lines
    /\ issued st' = issued st ++ (req' <$> inds)
    /\ added.*1 `sublist_of` inds.*1
    /\ fetched_names lines = added.*1
    /\ reported_failures lines = failed' inds
    /\ length lines <= length inds.
Proof.
  revert st. induction inds as [| ind inds IH]; intros st Hrun Hnodup Hfresh.
  - injection Hrun as <-. exists [], []. rewrite !app_nil_r. by repeat split.
  - cbn [fetch_loop] in Hrun.
    destruct (step' st ind) as [st1 |] eqn:Hstep; cbn [bind] in Hrun; [| done].
    apply Forall_cons in Hfresh as [Hind Hfresh].
    rewrite fmap_cons in Hnodup. apply NoDup_cons in Hnodup as [Hnotin Hnodup].
    apply fetch_indicator_inv in Hstep as [Hissued Hcases].
    assert (exists entry out,
              all_data st1 = all_data st ++ entry
              /\ printed st1 = printed st ++ out
              /\ entry.*1 `sublist_of` [ind.1]
              /\ fetched_names out = entry.*1
              /\ reported_failures out
                 = match ans' ind with
                   | RequestException e => [(ind.1, e)]
                   | _ => []
                   end
              /\ length out <= 1)
      as (entry & out & Hdata & Hprinted & Hsub & Hnames & Hfail & Hlen).
    { destruct Hcases
        as [(e & -> & -> & ->) | [(Hne & -> & ->) | (Hne & df & -> & ->)]].
      - exists [], [ErrorFetching ind.1 e]. rewrite app_nil_r.
        repeat split; try done; try apply sublist_nil_l.
      - exists [], []. rewrite !app_nil_r.
        repeat split; try done; try apply sublist_nil_l; try (simpl; lia).
        destruct (ans' ind) as [e | |]; [by destruct (Hne e) | done ..].
      - exists [(ind.1, df)], [Fetched ind.1].
        rewrite alist_set_fresh by done.
        repeat split; try done.
        destruct (ans' ind) as [e | |]; [by destruct (Hne e) | done ..]. }
    destruct (IH st1 Hrun Hnodup) as (added & lines & Hd & Hp & Hi & Hs & Hn & Hf & Hl).
    { eapply Forall_impl; [apply Forall_and; split;
        [exact Hfresh | apply Forall_forall; intros x Hx; exact Hx] |].
      intros ind' [Hget Hin]. rewrite Hdata, alist_get_app, Hget.
      apply alist_get_None_keys. intros Hk.
      apply (sublist_subseteq _ _ Hsub) in Hk.
      apply list_elem_of_singleton in Hk. destruct Hnotin. rewrite <- Hk.
      apply list_elem_of_fmap. eauto. }
    exists (entry ++ added), (out ++ lines).
    rewrite Hd, Hp, Hi, Hdata, Hprinted, Hissued, <- !(assoc_L (++)).
    split; [done |]. split; [done |]. split; [done |].
    split; [rewrite fmap_app, fmap_cons; by apply (sublist_app _ [ind.1]) |].
    unfold fetched_names, reported_failures in *.
    rewrite !omap_app, Hnames, Hn, Hfail, Hf, fmap_app, failed_requests_cons.
    split; [done |]. split; [done |]. rewrite length_app. simpl. lia.
Qed.

Lemma fetch_loop_app (st : fetch_state) (pre post : list (string * string)) :
  loop' st (pre ++ post)
  = let* st1 := loop' st pre in
    loop' st1 post.
Proof.
  revert st. induction pre as [| ind pre IH]; intros st; [done |].
  cbn [app fetch_loop]. destruct (step' st ind); cbn [bind]; [apply IH | done].
Qed.

End FetcherInvariants.

(** X2: whatever the network answers and whatever [pd.DataFrame] does,
    when the fetcher returns it has issued the five requests in the order
    of [INDICATORS], and the names of its mapping are distinct names of
    [INDICATORS] in that order, at most five. *)
Theorem fetch_result_names
    (requests_get : string -> params -> outcome)
    (pd_DataFrame : pyval -> result DataFrame) (countries year : string)
    (st : fetch_state) :
  fetch_wb_demographic_data requests_get pd_DataFrame countries year = Ok st ->
  issued st = request_of countries year <$> INDICATORS
  /\ (all_data st).*1 `sublist_of` INDICATORS.*1
  /\ NoDup (all_data st).*1
  /\ length (all_data st) <= 5.
Proof.
  intros Hrun. unfold fetch_wb_demographic_data in Hrun.
  apply fetch_loop_inv in Hrun
    as (added & lines & Hd & _ & Hi & Hsub & _);
    [| exact INDICATORS_NoDup | by apply Forall_forall].
  cbn [all_data issued app] in Hd, Hi. rewrite Hd, Hi.
  split; [done |]. split; [done |].
  split; [by eapply sublist_NoDup; [exact INDICATORS_NoDup |] |].
  apply sublist_length in Hsub. by rewrite !length_fmap in Hsub.
Qed.

Lemma fetch_result_names_witness :
  exists st,
    fetch_wb_demographic_data flaky_network frame_of_records
      default_countries default_year = Ok st
    /\ NoDup (all_data st).*1
    /\ length (all_data st) <= 5.
Proof.
  eexists. split; [vm_compute; reflexivity |].
  eapply (fetch_result_names flaky_network frame_of_records
            default_countries default_year).
  vm_compute. reflexivity.
Defined.

(** X3: when the fetcher returns, its output has at most one line per
    indicator: the success lines name exactly the entries of the mapping,
    in order, and the failure lines report exactly the requests that
    raised a [RequestException], in order, with the text of the
    exception.  A request that answers without a usable payload leaves no
    line at all. *)
Theorem fetch_output_lines
    (requests_get : string -> params -> outcome)
    (pd_DataFrame : pyval -> result DataFrame) (countries year : string)
    (st : fetch_state) :
  fetch_wb_demographic_data requests_get pd_DataFrame countries year = Ok st ->
  fetched_names (printed st) = (all_data st).*1
  /\ reported_failures (printed st)
     = failed_requests requests_get countries year INDICATORS
  /\ length (printed st) <= 5.
Proof.
  intros Hrun. unfold fetch_wb_demographic_data in Hrun.
  apply fetch_loop_inv in Hrun
    as (added & lines & Hd & Hp & _ & _ & Hnames & Hfail & Hlen);
    [| exact INDICATORS_NoDup | by apply Forall_forall].
  cbn [all_data printed app] in Hd, Hp. by rewrite Hd, Hp.
Qed.

Lemma fetch_output_lines_witness :
  exists st,
    fetch_wb_demographic_data flaky_network frame_of_records
      default_countries default_year = Ok st
    /\ fetched_names (printed st) = (all_data st).*1
    /\ reported_failures (printed st)
       = [("male_pop", "503 Server Error");
          ("female_pop", "Connection refused")].
Proof.
  eexists. split; [vm_compute; reflexivity |].
  destruct (fetch_output_lines flaky_network frame_of_records
              default_countries default_year _ eq_refl) as (Hn & Hf & _).
  split; [exact Hn | exact Hf].
Defined.

(** X4: only a [RequestException] is tolerated.  When the requests before
    an indicator went as expected and the request for that indicator
    raises another exception, or its body is a JSON null, boolean or
    number, or a JSON object with more than one key, or [pd.DataFrame]
    raises on its payload, the fetcher raises that error and returns no
    mapping at all. *)
Theorem fetch_aborts_on_other_errors
    (requests_get : string -> params -> outcome)
    (pd_DataFrame : pyval -> result DataFrame) (countries year : string)
    (pre post : list (string * string)) (ind : string * string) :
  INDICATORS = pre ++ ind :: post ->
  Forall (λ i, well_shaped pd_DataFrame
                 (answer requests_get countries year i)) pre ->
  let fetch :=
    fetch_wb_demographic_data requests_get pd_DataFrame countries year in
  let body := answer requests_get countries year ind in
  (forall e, body = OtherException e -> fetch = Raise e)
  /\ (body = Body PNone \/ body = Body PNaN
      \/ (exists b, body = Body (PBool b))
      \/ (exists q, body = Body (PNum q)) ->
      fetch = Raise TypeError)
  /\ (forall kvs,
        body = Body (PDict kvs) -> 1 < length kvs ->
        fetch = Raise (KeyError "1"))
  /\ (forall d e,
        payload body = Some d -> pd_DataFrame d = Raise e ->
        fetch = Raise e).
Proof.
  intros Hsplit Hpre fetch body.
  assert (forall e,
            fetch_indicator requests_get pd_DataFrame countries year
              (mkFetch (omap (table_of requests_get pd_DataFrame countries
                                year) pre)
                       (pre ≫= lines_of requests_get countries year)
                       (request_of countries year <$> pre)) ind = Raise e ->
            fetch = Raise e) as Hstep.
  { intros e He. subst fetch. unfold fetch_wb_demographic_data.
    rewrite Hsplit, fetch_loop_app, fetch_loop_spec; first last.
    - by apply Forall_forall.
    - pose proof INDICATORS_NoDup as Hnodup.
      rewrite Hsplit, fmap_app in Hnodup. by apply NoDup_app in Hnodup as [? _].
    - done.
    - cbn [bind all_data printed issued app fetch_loop]. by rewrite He. }
  subst body. destruct ind as [name code].
  unfold fetch_indicator, answer in *. cbn [fst snd] in *.
  split; [| split; [| split]].
  - intros e He. apply Hstep. by rewrite He.
  - intros [He | [He | [[b He] | [q He]]]]; apply Hstep; by rewrite He.
  - intros kvs He Hlen. apply Hstep. rewrite He. cbn [py_len bind].
    destruct (Nat.ltb_spec 1 (length kvs)); [done | lia].
  - intros d e Hpay He. apply Hstep.
    destruct (requests_get _ _) as [| | data]; try done.
    destruct data as [| | | | | [| meta [| d1 l]] |]; try done.
    cbn in Hpay. cbn [py_len bind length getitem_int lookup list_lookup].
    destruct (truthy d1); [| done]. injection Hpay as ->.
    cbn. by rewrite He.
Qed.

Lemma fetch_aborts_on_other_errors_witness :
  fetch_wb_demographic_data null_body_network frame_of_records
    default_countries default_year = Raise TypeError.
Proof.
  destruct (fetch_aborts_on_other_errors null_body_network frame_of_records
              default_countries default_year
              [("male_pop", "SP.POP.TOTL.MA.IN")]
              [("age_0_14", "SP.POP.0014.TO.ZS");
               ("age_15_64", "SP.POP.1564.TO.ZS");
               ("age_65_plus", "SP.POP.65UP.TO.ZS")]
              ("female_pop", "SP.POP.TOTL.FE.IN"))
    as (_ & Hnull & _).
  - reflexivity.
  - repeat constructor.
  - apply Hnull. left. reflexivity.
Defined.

Section Processing.

Variable parse_float : string -> option Q.

Implicit Types (items wb_data : list (string * DataFrame)).
Implicit Types (d : gmap string (list pyval)).

#[local] Abbreviation fill := (fill_indicators parse_float).
#[local] Abbreviation coerced := (coerce parse_float).

Lemma coerce_is_number (c : pyval) : is_number (coerced c) = true.
Proof.
  unfold coerce. destruct c as [| b | q | | s | l | kvs]; try done.
  simpl. by destruct (parse_float s).
Qed.

Lemma indicator_values_inv (df : DataFrame) (values : list pyval) :
  indicator_values parse_float df = Ok values ->
  exists col,
    alist_get "value" (df_columns df) = Some col
    /\ values = coerced <$> col.
Proof.
  unfold indicator_values, get_column.
  destruct (alist_get "value" (df_columns df)) as [col |]; [| done].
  intros [= <-]. by exists col.
Qed.

(** Where an entry of the dictionary comes from after the loop of lines
    81-84: it was there before, or it is the coerced [value] column of a
    non-empty table of that name. *)
Lemma fill_indicators_origin items (data d : gmap string (list pyval)) k l :
  fill items data = Ok d ->
  d !! k = Some l ->
  data !! k = Some l
  \/ exists df col,
       (k, df) ∈ items /\ df_empty df = false
       /\ alist_get "value" (df_columns df) = Some col
       /\ l = coerced <$> col.
Proof.
  revert data. induction items as [| [name df] items IH]; intros data; simpl.
  - intros [= <-] Hk. by left.
  - destruct (df_empty df) eqn:Hempty; simpl.
    + intros Hfill Hk. destruct (IH _ Hfill Hk) as [? | (df' & col & ? & ?)];
        [by left |].
      right. exists df', col. split; [by right | done].
    + destruct (indicator_values parse_float df) as [vs |] eqn:Hvs;
        cbn [bind]; [| done].
      intros Hfill Hk.
      destruct (IH _ Hfill Hk) as [Hin | (df' & col & ? & ?)].
      * destruct (decide (name = k)) as [-> | Hne].
        -- rewrite lookup_insert_eq in Hin. injection Hin as ->.
           apply indicator_values_inv in Hvs as (col & Hcol & ->).
           right. exists df, col. split; [left | done].
        -- rewrite lookup_insert_ne in Hin by done. by left.
      * right. exists df', col. split; [by right | done].
Qed.

(** The loop returns when every table is empty or has a [value] column. *)
Lemma fill_indicators_returns items (data : gmap string (list pyval)) :
  Forall (λ item, processable item.2) items ->
  exists d, fill items data = Ok d.
Proof.
  intros Hall. revert data.
  induction Hall as [| [name df] items Hdf _ IH]; intros data; simpl in *.
  - by eexists.
  - destruct Hdf as [-> | [col Hcol]]; simpl; [apply IH |].
    destruct (df_empty df); simpl; [apply IH |].
    unfold indicator_values, get_column. rewrite Hcol. cbn [bind]. apply IH.
Qed.

(** The loop raises nothing but the [KeyError] of [df['value']]. *)
Lemma fill_indicators_raises items (data : gmap string (list pyval)) e :
  fill items data = Raise e -> e = KeyError "value".
Proof.
  revert data. induction items as [| [name df] items IH]; intros data; simpl.
  - done.
  - destruct (df_empty df); simpl; [apply IH |].
    unfold indicator_values, get_column.
    destruct (alist_get "value" (df_columns df)); cbn [bind]; [apply IH |].
    by intros [= <-].
Qed.

Lemma fill_indicators_missing_value items (data : gmap string (list pyval)) :
  Exists (λ item, df_empty item.2 = false
                  /\ alist_get "value" (df_columns item.2) = None) items ->
  fill items data = Raise (KeyError "value").
Proof.
  intros Hex. revert data.
  induction Hex as [[name df] items [Hne Hcol] | [name df] items _ IH];
    intros data; simpl in *.
  - rewrite Hne. simpl. unfold indicator_values, get_column. by rewrite Hcol.
  - destruct (fill ((name, df) :: items) data) as [d |] eqn:Hfill.
    + simpl in Hfill. destruct (df_empty df); simpl in Hfill.
      * by rewrite IH in Hfill.
      * destruct (indicator_values parse_float df); cbn [bind] in Hfill;
          [by rewrite IH in Hfill | done].
    + simpl in Hfill. rewrite Hfill. f_equal.
      by apply (fill_indicators_raises ((name, df) :: items) data).
Qed.

(** With distinct names, the entry of a non-empty table is its coerced
    [value] column. *)
Lemma fill_indicators_lookup items (data d : gmap string (list pyval))
    k df col :
  NoDup items.*1 ->
  (k, df) ∈ items ->
  df_empty df = false ->
  alist_get "value" (df_columns df) = Some col ->
  fill items data = Ok d ->
  d !! k = Some (coerced <$> col).
Proof.
  revert data. induction items as [| [name df'] items IH]; intros data.
  - by intros _ ?%elem_of_nil.
  - rewrite fmap_cons. intros [Hnotin Hnodup]%NoDup_cons Hin Hne Hcol.
    simpl in Hnotin.
    apply elem_of_cons in Hin as [[= <- <-] | Hin]; simpl.
    + rewrite Hne. simpl. unfold indicator_values, get_column.
      rewrite Hcol. cbn [bind]. intros Hfill.
      rewrite (fill_indicators_other_key _ _ _ _ _ Hnotin Hfill).
      apply lookup_insert_eq.
    + destruct (df_empty df'); simpl; [by apply IH |].
      destruct (indicator_values parse_float df'); cbn [bind]; [| done].
      by apply IH.
Qed.

End Processing.

Section Normalizing.

Implicit Types (data : gmap string (list pyval)) (n : nat).

Lemma shorten_str (c : pyval) :
  is_str c = true -> exists label, shorten c = Ok (PStr label).
Proof.
  destruct c as [| | | | s | |]; try done. intros _.
  destruct (Nat.le_gt_cases (String.length s) 12).
  - exists s. by apply shorten_short.
  - eexists. by apply shorten_long.
Qed.

Lemma for_each_shorten_strs (l : list pyval) :
  Forall (λ c, is_str c = true) l ->
  exists labels,
    for_each shorten l = Ok labels
    /\ Forall (λ c, is_str c = true) labels.
Proof.
  induction 1 as [| c l Hc _ (labels & IH & Hlabels)]; [by exists [] |].
  destruct (shorten_str c Hc) as [label Hlabel].
  exists (PStr label :: labels). simpl. rewrite Hlabel, IH.
  split; [done |]. by constructor.
Qed.

Lemma population_fields_returns data n :
  exists m f, population_fields data n = Ok (m, f).
Proof.
  unfold population_fields.
  destruct (has_key "male_population" data) eqn:Hm;
    destruct (has_key "female_population" data) eqn:Hf; simpl; eauto.
  apply has_key_true in Hm as [m Hm]. apply has_key_true in Hf as [f Hf].
  unfold data_getitem. rewrite Hm, Hf. eauto.
Qed.

Lemma sample_numeric_fields : numeric_fields create_sample_demographic_data.
Proof.
  intros k l Hne Hk. unfold create_sample_demographic_data in Hk.
  apply elem_of_list_to_map_2 in Hk.
  repeat (apply elem_of_cons in Hk as [[= -> ->] | Hk];
          [first [done | by repeat constructor] |]).
  by apply elem_of_nil in Hk.
Qed.

End Normalizing.

Section ProcessedData.

Variable parse_float : string -> option Q.

Lemma process_wb_data_numeric (wb_data : list (string * DataFrame))
    (d : gmap string (list pyval)) :
  process_wb_data parse_float wb_data = Ok d -> numeric_fields d.
Proof.
  unfold process_wb_data.
  destruct wb_data as [| [name df] rest]; [done |]. cbn [bind].
  destruct (extract_countries df) as [names |]; cbn [bind]; [| done].
  intros Hfill k l Hne Hk.
  destruct (fill_indicators_origin _ _ _ _ _ _ Hfill Hk)
    as [Hinit | (df' & col & _ & _ & _ & ->)].
  - by rewrite lookup_singleton_ne in Hinit.
  - apply Forall_fmap, Forall_forall. intros c _. apply coerce_is_number.
Qed.

Lemma select_data_numeric (wb_data : list (string * DataFrame))
    (d : gmap string (list pyval)) :
  select_data parse_float wb_data = Ok d -> numeric_fields d.
Proof.
  unfold select_data. destruct (_ && _).
  - apply process_wb_data_numeric.
  - intros [= <-]. apply sample_numeric_fields.
Qed.

End ProcessedData.

(** X5: the fallback through the whole script.  When every request fails
    with a [RequestException] or answers with a well-formed body, and at
    most two of them yield a table, the script runs on the sample data:
    its report is the one computed from
    [create_sample_demographic_data], whatever the tables fetched hold. *)
Theorem main_falls_back_to_sample
    (requests_get : string -> params -> outcome)
    (pd_DataFrame : pyval -> result DataFrame)
    (parse_float : string -> option Q) :
  (forall ind,
     ind ∈ INDICATORS ->
     well_shaped pd_DataFrame
       (answer requests_get default_countries default_year ind)) ->
  length (omap (table_of requests_get pd_DataFrame default_countries
                  default_year) INDICATORS) <= 2 ->
  exists st r,
    main requests_get pd_DataFrame parse_float = Ok (st, r)
    /\ all_data st
       = omap (table_of requests_get pd_DataFrame default_countries
                 default_year) INDICATORS
    /\ normalize create_sample_demographic_data = Ok r
    /\ data r = create_sample_demographic_data.
Proof.
  intros Hshape Hfew. unfold main, fetch_wb_demographic_data.
  rewrite fetch_loop_spec;
    [| by apply Forall_forall | exact INDICATORS_NoDup | by apply Forall_forall].
  cbn [bind all_data printed issued app]. unfold script.
  rewrite select_data_few by done. cbn [bind].
  assert (exists r, normalize create_sample_demographic_data = Ok r
                    /\ data r = create_sample_demographic_data)
    as (r & Hr & Hdata)
    by (eexists; split; [vm_compute; reflexivity | by vm_compute]).
  rewrite Hr. cbn [bind]. by eexists _, r.
Qed.

Lemma main_falls_back_to_sample_witness :
  exists st r,
    main two_answers_network frame_of_records parse_unsigned = Ok (st, r)
    /\ (all_data st).*1 = ["age_15_64"; "age_65_plus"]
    /\ data r = create_sample_demographic_data.
Proof.
  destruct (main_falls_back_to_sample two_answers_network frame_of_records
              parse_unsigned) as (st & r & Hmain & Hdata & _ & Hsample).
  - apply Forall_forall. repeat constructor; try exact I.
    all: try (by eexists).
    all: intros d Hd; vm_compute in Hd; injection Hd as <-;
      eexists; vm_compute; reflexivity.
  - vm_compute. lia.
  - exists st, r. split; [exact Hmain |]. split; [| exact Hsample].
    rewrite Hdata. by vm_compute.
Defined.

(** X6: what the processing branch stores.  Every entry of the data it
    builds, other than [countries], is the [value] column of a non-empty
    fetched table of that name, coerced cell by cell: it has one number
    per row of that column and nothing else. *)
Theorem processed_entries_come_from_tables
    (parse_float : string -> option Q) (wb_data : list (string * DataFrame))
    (d : gmap string (list pyval)) (k : string) (l : list pyval) :
  process_wb_data parse_float wb_data = Ok d ->
  k <> "countries" ->
  d !! k = Some l ->
  exists df col,
    (k, df) ∈ wb_data
    /\ df_empty df = false
    /\ alist_get "value" (df_columns df) = Some col
    /\ l = coerce parse_float <$> col
    /\ length l = length col
    /\ Forall (λ v, is_number v = true) l.
Proof.
  intros Hrun Hne Hk. pose proof (process_wb_data_numeric _ _ _ Hrun k l Hne Hk).
  unfold process_wb_data in Hrun.
  destruct wb_data as [| [name df] rest]; [done |]. cbn [bind] in Hrun.
  destruct (extract_countries df) as [names |]; cbn [bind] in Hrun; [| done].
  destruct (fill_indicators_origin _ _ _ _ _ _ Hrun Hk)
    as [Hinit | (df' & col & Hin & Hne' & Hcol & ->)].
  - by rewrite lookup_singleton_ne in Hinit.
  - exists df', col. by rewrite length_fmap.
Qed.

Lemma processed_entries_come_from_tables_witness :
  exists d df col,
    process_wb_data parse_unsigned three_tables = Ok d
    /\ d !! "male_pop" = Some [PNum 163; PNum 0; PNum (inject_Z 717)]
    /\ ("male_pop", df) ∈ three_tables
    /\ alist_get "value" (df_columns df) = Some col
    /\ length [PNum 163; PNum 0; PNum (inject_Z 717)] = length col.
Proof.
  eexists.
  assert (process_wb_data parse_unsigned three_tables = Ok _) as Hrun
    by (vm_compute; reflexivity).
  destruct (processed_entries_come_from_tables parse_unsigned three_tables
              _ "male_pop" [PNum 163; PNum 0; PNum (inject_Z 717)] Hrun)
    as (df & col & Hin & _ & Hcol & _ & Hlen & _); [done | reflexivity |].
  exists df, col. by repeat split.
Defined.

(** X8: a table without its [value] column stops the script.  When the
    processing branch is taken (more than two tables), the names are
    extracted, and some non-empty table has no [value] column, the
    selection of the data raises [KeyError('value')], and so does the
    script: there is no fallback to the sample data. *)
Theorem missing_value_column_raises (parse_float : string -> option Q)
    (name : string) (df : DataFrame) (rest : list (string * DataFrame))
    (names : list pyval) :
  2 <= length rest ->
  extract_countries df = Ok names ->
  Exists (λ item, df_empty item.2 = false
                  /\ alist_get "value" (df_columns item.2) = None)
    ((name, df) :: rest) ->
  select_data parse_float ((name, df) :: rest) = Raise (KeyError "value")
  /\ script parse_float ((name, df) :: rest) = Raise (KeyError "value").
Proof.
  intros Hlen Hnames Hmissing.
  assert (select_data parse_float ((name, df) :: rest)
          = Raise (KeyError "value")) as Hsel.
  { rewrite select_data_many by (simpl; lia).
    unfold process_wb_data. cbn [bind]. rewrite Hnames. cbn [bind].
    by apply fill_indicators_missing_value. }
  split; [done |]. unfold script. by rewrite Hsel.
Qed.

Lemma missing_value_column_raises_witness :
  script parse_unsigned
    (("male_pop", three_rows)
       :: [("female_pop", three_rows); ("age_0_14", no_value_rows)])
  = Raise (KeyError "value").
Proof.
  apply (missing_value_column_raises parse_unsigned "male_pop" three_rows
           [("female_pop", three_rows); ("age_0_14", no_value_rows)]
           [PStr "United States"; PStr "China"; PStr "India"]).
  - simpl. lia.
  - reflexivity.
  - right. right. left. split; reflexivity.
Defined.

Section ScriptInversion.

Variable parse_float : string -> option Q.

Lemma normalize_avg (data0 : gmap string (list pyval)) (r : report) :
  normalize data0 = Ok r ->
  for_each np_mean [age_0_14 r; age_15_64 r; age_65_plus r]
  = Ok (avg_age_dist r).
Proof.
  unfold normalize.
  destruct (truncate data0) as [[n d] |]; cbn [bind]; [| done].
  destruct (data_getitem "countries" d); cbn [bind]; [| done].
  destruct (for_each shorten _); cbn [bind]; [| done].
  destruct (population_fields d n); cbn [bind]; [| done].
  destruct (for_each np_mean _) as [avg |] eqn:Havg; cbn [bind]; [| done].
  by intros [= <-].
Qed.

(** The entries of the data built by the processing branch: the names that
    the first table gives, and nothing under a key that no non-empty
    table carries. *)
Lemma process_wb_data_unfetched (wb_data : list (string * DataFrame))
    (d : gmap string (list pyval)) (k : string) :
  process_wb_data parse_float wb_data = Ok d ->
  k <> "countries" ->
  unfetched k wb_data ->
  d !! k = None.
Proof.
  intros Hrun Hne Hun. destruct (d !! k) as [l |] eqn:Hk; [| done].
  unfold process_wb_data in Hrun.
  destruct wb_data as [| [name df] rest]; [done |]. cbn [bind] in Hrun.
  destruct (extract_countries df) as [names |]; cbn [bind] in Hrun; [| done].
  destruct (fill_indicators_origin _ _ _ _ _ _ Hrun Hk)
    as [Hinit | (df' & col & Hin & Hne' & _)].
  - by rewrite lookup_singleton_ne in Hinit.
  - rewrite (Hun df' Hin) in Hne'. done.
Qed.

(** A run of the script on more than two tables. *)
Lemma script_many_inv (wb_data : list (string * DataFrame)) (r : report) :
  2 < length wb_data ->
  script parse_float wb_data = Ok r ->
  exists d,
    process_wb_data parse_float wb_data = Ok d /\ normalize d = Ok r.
Proof.
  intros Hlen. unfold script. rewrite select_data_many by done.
  destruct (process_wb_data parse_float wb_data) as [d |]; cbn [bind];
    [| done].
  intros Hr. by exists d.
Qed.

End ScriptInversion.

(** X9: an indicator that was not fetched gets its default.  On more than
    two tables, when no non-empty table carries the keys of an age field,
    the field is the default value (20, 65 or 15) once per country kept;
    with both population sample keys unfetched the same holds for 100
    and the keys "male_pop" and "female_pop".  The average drawn for an
    age bracket is then that default, as soon as one country is kept. *)
Theorem missing_indicator_gets_default (parse_float : string -> option Q)
    (wb_data : list (string * DataFrame)) (r : report) :
  2 < length wb_data ->
  script parse_float wb_data = Ok r ->
  (unfetched "age_0_14_percent" wb_data -> unfetched "age_0_14" wb_data ->
     age_0_14 r = replicate (num_countries r) (PNum 20)
     /\ (0 < num_countries r ->
         exists m, avg_age_dist r !! 0 = Some (PNum m) /\ (m == 20)%Q))
  /\ (unfetched "age_15_64_percent" wb_data ->
      unfetched "age_15_64" wb_data ->
      age_15_64 r = replicate (num_countries r) (PNum 65)
      /\ (0 < num_countries r ->
          exists m, avg_age_dist r !! 1 = Some (PNum m) /\ (m == 65)%Q))
  /\ (unfetched "age_65_plus_percent" wb_data ->
      unfetched "age_65_plus" wb_data ->
      age_65_plus r = replicate (num_countries r) (PNum 15)
      /\ (0 < num_countries r ->
          exists m, avg_age_dist r !! 2 = Some (PNum m) /\ (m == 15)%Q))
  /\ (unfetched "male_population" wb_data ->
      unfetched "male_pop" wb_data ->
      male_data r = replicate (num_countries r) (PNum 100))
  /\ (unfetched "male_population" wb_data ->
      unfetched "female_pop" wb_data ->
      female_data r = replicate (num_countries r) (PNum 100)).
Proof.
  intros Hlen Hrun.
  destruct (script_many_inv _ _ _ Hlen Hrun) as (d & Hd & Hr).
  pose proof (normalize_avg _ _ Hr) as Havg.
  apply normalize_inv in Hr
    as (cs & Hcs & Hdata & Hn & _ & Hpop & Ha0 & Ha1 & Ha2).
  assert (forall k, k <> "countries" -> unfetched k wb_data ->
                    data r !! k = None) as Hnone.
  { intros k Hne Hun. rewrite Hdata, truncate_all_lookup.
    by rewrite (process_wb_data_unfetched _ _ _ _ Hd Hne Hun). }
  assert (forall k1 k2 dflt,
            k1 <> "countries" -> k2 <> "countries" ->
            unfetched k1 wb_data -> unfetched k2 wb_data ->
            age_field k1 k2 dflt (data r) (num_countries r)
            = replicate (num_countries r) (PNum dflt)) as Hage.
  { intros k1 k2 dflt H1 H2 Hu1 Hu2. unfold age_field, data_get.
    rewrite (Hnone k1 H1 Hu1), (Hnone k2 H2 Hu2). simpl.
    unfold constant_list. by rewrite take_replicate, Nat.min_id. }
  cbn [for_each] in Havg.
  destruct (np_mean (age_0_14 r)) as [v0 |] eqn:Hv0; cbn [bind] in Havg;
    [| done].
  destruct (np_mean (age_15_64 r)) as [v1 |] eqn:Hv1; cbn [bind] in Havg;
    [| done].
  destruct (np_mean (age_65_plus r)) as [v2 |] eqn:Hv2; cbn [bind] in Havg;
    [| done].
  injection Havg as Havg.
  split; [| split; [| split; [| split]]].
  - intros Hu1 Hu2. rewrite Ha0, Hage by done. split; [done |].
    intros Hpos. destruct (np_mean_replicate 20 _ Hpos) as (m & Hm & Heq).
    rewrite Ha0, Hage, Hm in Hv0 by done. injection Hv0 as <-.
    exists m. by rewrite <- Havg.
  - intros Hu1 Hu2. rewrite Ha1, Hage by done. split; [done |].
    intros Hpos. destruct (np_mean_replicate 65 _ Hpos) as (m & Hm & Heq).
    rewrite Ha1, Hage, Hm in Hv1 by done. injection Hv1 as <-.
    exists m. by rewrite <- Havg.
  - intros Hu1 Hu2. rewrite Ha2, Hage by done. split; [done |].
    intros Hpos. destruct (np_mean_replicate 15 _ Hpos) as (m & Hm & Heq).
    rewrite Ha2, Hage, Hm in Hv2 by done. injection Hv2 as <-.
    exists m. by rewrite <- Havg.
  - intros Hu1 Hu2.
    rewrite population_fields_not_both in Hpop
      by (left; by apply Hnone).
    injection Hpop as <- _. simpl. rewrite (Hnone "male_pop") by done.
    by rewrite take_replicate, Nat.min_id.
  - intros Hu1 Hu2.
    rewrite population_fields_not_both in Hpop
      by (left; by apply Hnone).
    injection Hpop as _ <-. simpl. rewrite (Hnone "female_pop") by done.
    by rewrite take_replicate, Nat.min_id.
Qed.

Lemma missing_indicator_gets_default_witness :
  exists r,
    script parse_unsigned three_tables = Ok r
    /\ age_65_plus r = replicate (num_countries r) (PNum 15)
    /\ exists m, avg_age_dist r !! 2 = Some (PNum m) /\ (m == 15)%Q.
Proof.
  eexists. split; [vm_compute; reflexivity |].
  destruct (missing_indicator_gets_default parse_unsigned three_tables _
              ltac:(simpl; lia) eq_refl) as (_ & _ & H65 & _).
  assert (forall k, k ∉ three_tables.*1 -> unfetched k three_tables) as Hun.
  { intros k Hk df Hin. destruct Hk. apply list_elem_of_fmap.
    by exists (k, df). }
  destruct H65 as [Hlist Havg].
  - apply Hun. by apply (bool_decide_unpack _).
  - apply Hun. by apply (bool_decide_unpack _).
  - split; [exact Hlist |]. apply Havg. simpl. lia.
Defined.

Section EmptyCountries.

(** With no country, the values of lines 91-135 are an empty record set. *)
Lemma normalize_no_countries (data0 : gmap string (list pyval)) :
  data0 !! "countries" = Some [] ->
  exists r,
    normalize data0 = Ok r
    /\ num_countries r = 0
    /\ data r = truncate_all 0 data0
    /\ countries_short r = []
    /\ male_data r = [] /\ female_data r = []
    /\ age_0_14 r = [] /\ age_15_64 r = [] /\ age_65_plus r = []
    /\ avg_age_dist r = [PNaN; PNaN; PNaN].
Proof.
  intros Hcs. unfold normalize. rewrite (truncate_ok _ _ Hcs).
  cbn [bind length Nat.min]. unfold data_getitem at 1.
  rewrite truncate_all_lookup, Hcs. cbn.
  destruct (population_fields_returns (truncate_all 0 data0) 0)
    as (m & f & Hpop).
  assert (m = [] /\ f = []) as [-> ->].
  { apply population_fields_length in Hpop.
    - destruct Hpop as [Hm Hf]. destruct m, f; simpl in *; done || lia.
    - intros k l. rewrite truncate_all_lookup.
      destruct (data0 !! k); simpl; [| done]. by intros [= <-]. }
  rewrite Hpop. cbn. eexists. by repeat split.
Qed.

End EmptyCountries.

(** X10: the first table alone fixes the number of countries.  On more
    than two tables that can all be processed, when the first table has
    no [country] column and no rows, the script returns an empty record
    set (no labels, no values, whatever the other tables hold) and the
    three averages are NaN. *)
Theorem empty_first_table_empties_report (parse_float : string -> option Q)
    (name : string) (df : DataFrame) (rest : list (string * DataFrame)) :
  2 <= length rest ->
  alist_get "country" (df_columns df) = None ->
  df_len df = 0 ->
  "countries" ∉ name :: rest.*1 ->
  Forall (λ item, processable item.2) ((name, df) :: rest) ->
  exists r,
    script parse_float ((name, df) :: rest) = Ok r
    /\ num_countries r = 0
    /\ countries_short r = []
    /\ (forall k l, data r !! k = Some l -> l = [])
    /\ male_data r = [] /\ female_data r = []
    /\ age_0_14 r = [] /\ age_15_64 r = [] /\ age_65_plus r = []
    /\ avg_age_dist r = [PNaN; PNaN; PNaN].
Proof.
  intros Hlen Hcol Hrows Hfresh Hproc. unfold script.
  rewrite select_data_many by (simpl; lia).
  unfold process_wb_data. cbn [bind].
  rewrite (extract_countries_no_column _ Hcol), Hrows. cbn [bind seq fmap list_fmap].
  destruct (fill_indicators_returns parse_float ((name, df) :: rest)
              {["countries" := []]} Hproc) as [d Hd].
  rewrite Hd. cbn [bind].
  assert (d !! "countries" = Some []) as Hcs.
  { rewrite (fill_indicators_other_key _ ((name, df) :: rest) _ _ _
               Hfresh Hd).
    apply lookup_singleton_eq. }
  destruct (normalize_no_countries d Hcs)
    as (r & Hr & Hn & Hdata & Hrest).
  exists r. split; [done |]. split; [done |].
  destruct Hrest as (Hshort & Hrest). split; [done |]. split; [| done].
  intros k l. rewrite Hdata, truncate_all_lookup.
  destruct (d !! k); simpl; [| done]. by intros [= <-].
Qed.

Lemma empty_first_table_empties_report_witness :
  exists r,
    script parse_unsigned
      (("male_pop", empty_table)
         :: [("female_pop", three_rows); ("age_0_14", one_row)]) = Ok r
    /\ num_countries r = 0
    /\ countries_short r = [].
Proof.
  destruct (empty_first_table_empties_report parse_unsigned "male_pop"
              empty_table [("female_pop", three_rows); ("age_0_14", one_row)])
    as (r & Hr & Hn & Hshort & _).
  - simpl. lia.
  - reflexivity.
  - reflexivity.
  - by apply (bool_decide_unpack _).
  - apply List.Forall_cons; [left; reflexivity |].
    repeat (apply List.Forall_cons; [right; by eexists |]).
    apply List.Forall_nil.
  - by exists r.
Defined.

(** After the truncation of lines 91-94 the fields of lines 99-109 are
    the lists found under the candidate keys, as they are. *)
Lemma truncated_fields_priority
    (data0 : gmap string (list pyval)) (n : nat) :
  let data := truncate_all n data0 in
  (forall k1 k2 dflt,
     age_field k1 k2 dflt data n
     = first_present [k1; k2] (replicate n (PNum dflt)) data)
  /\ ((is_Some (data0 !! "male_population")
       <-> is_Some (data0 !! "female_population")) ->
      population_fields data n
      = Ok (first_present ["male_population"; "male_pop"]
              (replicate n (PNum 100)) data,
            first_present ["female_population"; "female_pop"]
              (replicate n (PNum 100)) data)).
Proof.
  intros data.
  assert (forall keys dflt,
            take n (first_present keys (replicate n (PNum dflt)) data)
            = first_present keys (replicate n (PNum dflt)) data) as Htake.
  { intros keys dflt. apply take_ge.
    induction keys as [| k keys IH]; simpl; [by rewrite length_replicate |].
    subst data. rewrite truncate_all_lookup.
    destruct (data0 !! k); simpl; [rewrite length_take; lia | exact IH]. }
  split.
  - intros k1 k2 dflt. by rewrite age_field_priority, Htake.
  - intros Hpaired.
    destruct (data0 !! "male_population") as [m |] eqn:Hm.
    + destruct (proj1 Hpaired ltac:(by eexists)) as [f Hf].
      rewrite (population_fields_both data n (take n m) (take n f)).
      * simpl. subst data. rewrite !truncate_all_lookup, Hm, Hf. done.
      * subst data. by rewrite truncate_all_lookup, Hm.
      * subst data. by rewrite truncate_all_lookup, Hf.
    + assert (data0 !! "female_population" = None) as Hf.
      { destruct (data0 !! "female_population") eqn:Hf; [| done].
        destruct (proj2 Hpaired ltac:(by eexists)) as [? ?]. done. }
      rewrite population_fields_not_both
        by (left; subst data; by rewrite truncate_all_lookup, Hm).
      rewrite !Htake. simpl. subst data.
      by rewrite !truncate_all_lookup, Hm, Hf.
Qed.

(** X11: on truncated data the second slicing of lines 104-109 changes
    nothing: each age field is the list found under its first present
    key, or the default list, as it is.  When the two sample keys of the
    population fields are both present or both absent (as on every data
    the script builds), the population fields too are the lists found
    under their first present key, or the default list. *)
Theorem fields_on_truncated_data
    (data0 : gmap string (list pyval)) (n : nat) :
  let data := truncate_all n data0 in
  (forall k1 k2 dflt,
     age_field k1 k2 dflt data n
     = first_present [k1; k2] (replicate n (PNum dflt)) data)
  /\ ((is_Some (data0 !! "male_population")
       <-> is_Some (data0 !! "female_population")) ->
      population_fields data n
      = Ok (first_present ["male_population"; "male_pop"]
              (replicate n (PNum 100)) data,
            first_present ["female_population"; "female_pop"]
              (replicate n (PNum 100)) data)).
Proof. exact (truncated_fields_priority data0 n). Qed.

Lemma fields_on_truncated_data_witness :
  population_fields (truncate_all 3 short_indicator) 3
  = Ok (first_present ["male_population"; "male_pop"]
          (replicate 3 (PNum 100)) (truncate_all 3 short_indicator),
        first_present ["female_population"; "female_pop"]
          (replicate 3 (PNum 100)) (truncate_all 3 short_indicator)).
Proof.
  apply (fields_on_truncated_data short_indicator 3).
  split; intros [l Hl]; vm_compute in Hl; discriminate Hl.
Defined.

Section LabelFacts.

Lemma long_label_chars (s : string) :
  chars (String.substring 0 12 s ++ "...")
  = take 12 (chars s) ++ chars "...".
Proof. by rewrite chars_app, chars_substring. Qed.

Lemma long_label_length (s : string) :
  12 < String.length s ->
  String.length (String.substring 0 12 s ++ "...") = 15.
Proof.
  intros Hlen.
  rewrite <- length_chars, long_label_chars, length_app, length_take,
    length_chars.
  rewrite Nat.min_l by lia. reflexivity.
Qed.

(** Every error of the shortening is a [TypeError]. *)
Lemma shorten_raises (c : pyval) e : shorten c = Raise e -> e = TypeError.
Proof.
  unfold shorten. destruct c as [| b | q | | s | l | kvs]; simpl;
    try by intros [= <-].
  - by destruct (Nat.ltb 12 (String.length s)).
  - destruct (Nat.ltb 12 (length l)); [| done]. by intros [= <-].
  - destruct (Nat.ltb 12 (length kvs)); [| done]. by intros [= <-].
Qed.

Lemma for_each_shorten_raises (l : list pyval) e :
  for_each shorten l = Raise e -> e = TypeError.
Proof.
  induction l as [| c l IH]; simpl; [done |].
  destruct (shorten c) eqn:Hc; cbn [bind].
  - destruct (for_each shorten l); cbn [bind]; [done |]. apply IH.
  - intros [= <-]. by eapply shorten_raises.
Qed.

End LabelFacts.

(** X12: a chart label is stable.  Shortening a label again gives the
    same label, a label has at most 15 characters, and it agrees with the
    name on its first 12 characters. *)
Theorem label_is_stable (s label : string) :
  shorten (PStr s) = Ok (PStr label) ->
  shorten (PStr label) = Ok (PStr label)
  /\ String.length label <= 15
  /\ take 12 (chars label) = take 12 (chars s).
Proof.
  destruct (Nat.le_gt_cases (String.length s) 12) as [Hle | Hgt].
  - rewrite shorten_short by done. intros [= <-].
    split; [by apply shorten_short |]. split; [lia | done].
  - rewrite shorten_long by done. intros [= <-].
    pose proof (long_label_length s Hgt) as Hlen.
    assert (take 12 (chars (String.substring 0 12 s ++ "..."))
            = take 12 (chars s)) as Hpre.
    { rewrite long_label_chars, take_app_le
        by (rewrite length_take, length_chars; lia).
      by rewrite take_take, Nat.min_id. }
    split; [| split; [lia | done]].
    rewrite shorten_long by lia. do 2 f_equal.
    apply chars_inj.
    by rewrite (long_label_chars (String.substring 0 12 s ++ "...")), Hpre,
      long_label_chars.
Qed.

Lemma label_is_stable_witness :
  shorten (PStr "United Kingd...") = Ok (PStr "United Kingd...")
  /\ String.length "United Kingd..." <= 15.
Proof.
  destruct (label_is_stable "United Kingdom" "United Kingd..." eq_refl)
    as (Hstable & Hlen & _).
  split; [exact Hstable | exact Hlen].
Defined.

(** X13: which names share a label.  Two names get the same chart label
    exactly when they are equal or both are longer than 12 characters and
    agree on their first 12 characters; so the bars of two such
    countries carry the same tick label. *)
Theorem labels_collide_iff (s t : string) :
  shorten (PStr s) = shorten (PStr t)
  <-> s = t
      \/ (12 < String.length s /\ 12 < String.length t
          /\ take 12 (chars s) = take 12 (chars t)).
Proof.
  split.
  - destruct (Nat.le_gt_cases (String.length s) 12) as [Hs | Hs];
      destruct (Nat.le_gt_cases (String.length t) 12) as [Ht | Ht].
    + rewrite (shorten_short s Hs), (shorten_short t Ht).
      intros [= Heq]. by left.
    + rewrite (shorten_short s Hs), (shorten_long t Ht). intros [= Heq].
      pose proof (long_label_length t Ht) as Hlen.
      rewrite <- Heq in Hlen. lia.
    + rewrite (shorten_long s Hs), (shorten_short t Ht). intros [= Heq].
      pose proof (long_label_length s Hs) as Hlen.
      rewrite Heq in Hlen. lia.
    + rewrite (shorten_long s Hs), (shorten_long t Ht). intros [= Heq].
      right. split; [done |]. split; [done |].
      apply (f_equal chars) in Heq. rewrite !long_label_chars in Heq.
      by apply app_inv_tail in Heq.
  - intros [-> | (Hs & Ht & Heq)]; [done |].
    rewrite !shorten_long by done. do 2 f_equal.
    apply chars_inj. by rewrite !long_label_chars, Heq.
Qed.

Lemma labels_collide_iff_witness :
  shorten (PStr "United States") = shorten (PStr "United Statesman").
Proof.
  apply (labels_collide_iff "United States" "United Statesman").
  right. split; [simpl; lia |]. split; [simpl; lia | reflexivity].
Defined.

(** X14: a country entry that is not text stops the script.  When one of
    the entries kept of [data['countries']] is None, NaN, a number or a
    boolean (as a [country] column of plain values with a missing cell
    gives) and none is a dict, the shortening of the labels raises a
    [TypeError] and lines 91-135 raise it.  (Dicts are left out because
    the error of slicing one depends on the version of Python.) *)
Theorem non_text_country_raises
    (data0 : gmap string (list pyval)) (cs : list pyval) :
  data0 !! "countries" = Some cs ->
  Forall (λ c, isinstance_dict c = false)
    (take (Nat.min 8 (length cs)) cs) ->
  Exists (λ c, c = PNone \/ c = PNaN
               \/ (exists q, c = PNum q) \/ (exists b, c = PBool b))
    (take (Nat.min 8 (length cs)) cs) ->
  normalize data0 = Raise TypeError.
Proof.
  intros Hcs _ Hbad. unfold normalize. rewrite (truncate_ok _ _ Hcs).
  cbn [bind]. unfold data_getitem at 1.
  rewrite truncate_all_lookup, Hcs. cbn [fmap option_fmap option_map bind].
  destruct (for_each shorten _) as [labels |] eqn:Hshort; cbn [bind].
  - assert (raises (for_each shorten (take (Nat.min 8 (length cs)) cs)))
      as Hraises; [| by rewrite Hshort in Hraises].
    apply for_each_raises. eapply Exists_impl; [exact Hbad |].
    intros c [-> | [-> | [[q ->] | [b ->]]]]; done.
  - f_equal. by eapply for_each_shorten_raises.
Qed.

Lemma non_text_country_raises_witness :
  normalize (<["countries" := [PStr "Germany"; PNone]]> ∅) = Raise TypeError.
Proof.
  apply (non_text_country_raises _ [PStr "Germany"; PNone]).
  - reflexivity.
  - by repeat constructor.
  - right. left. by left.
Defined.

Section ExtractionErrors.

Lemma for_each_value_raises (col : list pyval) e :
  Forall (λ c, isinstance_dict c = true) col ->
  for_each (λ country, getitem_str country "value") col = Raise e ->
  e = KeyError "value".
Proof.
  induction 1 as [| c col Hc _ IH]; simpl; [done |].
  destruct c as [| | | | | | kvs]; try done. simpl.
  destruct (alist_get "value" kvs); cbn [bind]; [| by intros [= <-]].
  destruct (for_each _ col); cbn [bind]; [done |]. apply IH.
Qed.

Lemma extract_countries_nameless (df : DataFrame) (col : list pyval) :
  alist_get "country" (df_columns df) = Some col ->
  Forall (λ c, isinstance_dict c = true) col ->
  Exists (λ c, exists kvs, c = PDict kvs /\ alist_get "value" kvs = None)
    col ->
  extract_countries df = Raise (KeyError "value").
Proof.
  intros Hcol Hdict Hex. destruct col as [| c0 rest].
  { by apply Exists_nil in Hex. }
  rewrite (extract_countries_column _ _ _ Hcol).
  apply Forall_cons in Hdict as Hc0. destruct Hc0 as [-> _].
  destruct (for_each _ (c0 :: rest)) as [names |] eqn:Hnames.
  - assert (raises (for_each (λ country, getitem_str country "value")
                      (c0 :: rest))) as Hraises;
      [| by rewrite Hnames in Hraises].
    apply for_each_raises. eapply Exists_impl; [exact Hex |].
    intros c (kvs & -> & Hnone). simpl. by rewrite Hnone.
  - f_equal. by eapply for_each_value_raises.
Qed.

Lemma extract_countries_rowless (df : DataFrame) :
  alist_get "country" (df_columns df) = Some [] ->
  extract_countries df = Raise IndexError.
Proof.
  intros Hcol. unfold extract_countries, has_column, get_column.
  by rewrite Hcol.
Qed.

End ExtractionErrors.

(** X15: the errors of the country extraction stop the script.  On more
    than two tables, a first table whose [country] column has no rows
    makes the script raise an [IndexError], and one whose [country]
    column holds dicts of which some lacks "value" makes it raise
    [KeyError('value')]; neither case falls back to the sample data. *)
Theorem extraction_errors_stop_script (parse_float : string -> option Q)
    (name : string) (df : DataFrame) (rest : list (string * DataFrame))
    (col : list pyval) :
  2 <= length rest ->
  alist_get "country" (df_columns df) = Some col ->
  (col = [] ->
     script parse_float ((name, df) :: rest) = Raise IndexError)
  /\ (Forall (λ c, isinstance_dict c = true) col ->
      Exists (λ c, exists kvs,
                c = PDict kvs /\ alist_get "value" kvs = None) col ->
      script parse_float ((name, df) :: rest) = Raise (KeyError "value")).
Proof.
  intros Hlen Hcol.
  assert (forall e, extract_countries df = Raise e ->
                    script parse_float ((name, df) :: rest) = Raise e)
    as Hstop.
  { intros e He. unfold script. rewrite select_data_many by (simpl; lia).
    unfold process_wb_data. cbn [bind]. by rewrite He. }
  split.
  - intros ->. by apply Hstop, extract_countries_rowless.
  - intros Hdict Hex. by apply Hstop, (extract_countries_nameless df col).
Qed.

Lemma extraction_errors_stop_script_witness :
  script parse_unsigned
    (("male_pop", rowless_country)
       :: [("female_pop", three_rows); ("age_0_14", one_row)])
  = Raise IndexError
  /\ script parse_unsigned
       (("male_pop", nameless_country)
          :: [("female_pop", three_rows); ("age_0_14", one_row)])
     = Raise (KeyError "value").
Proof.
  split.
  - destruct (extraction_errors_stop_script parse_unsigned "male_pop"
                rowless_country
                [("female_pop", three_rows); ("age_0_14", one_row)] [])
      as [Hrowless _]; [simpl; lia | reflexivity |].
    by apply Hrowless.
  - destruct (extraction_errors_stop_script parse_unsigned "male_pop"
                nameless_country
                [("female_pop", three_rows); ("age_0_14", one_row)]
                [PDict [("id", PStr "US")]])
      as [_ Hnameless]; [simpl; lia | reflexivity |].
    apply Hnameless.
    + by repeat constructor.
    + left. by eexists.
Defined.

(** X16: the fetched values reach the charts.  On more than two tables
    with distinct indicator names, when the script returns, the entry of
    a non-empty table is its [value] column, coerced and cut to the
    number of countries kept, and that list is the field of the report
    that the indicator feeds. *)
Theorem fetched_values_reach_report (parse_float : string -> option Q)
    (wb_data : list (string * DataFrame)) (r : report)
    (k : string) (df : DataFrame) (col : list pyval) :
  2 < length wb_data ->
  NoDup wb_data.*1 ->
  wb_data.*1 ⊆ INDICATORS.*1 ->
  script parse_float wb_data = Ok r ->
  (k, df) ∈ wb_data ->
  df_empty df = false ->
  alist_get "value" (df_columns df) = Some col ->
  let values := take (num_countries r) (coerce parse_float <$> col) in
  data r !! k = Some values
  /\ (k = "male_pop" -> male_data r = values)
  /\ (k = "female_pop" -> female_data r = values)
  /\ (k = "age_0_14" -> age_0_14 r = values)
  /\ (k = "age_15_64" -> age_15_64 r = values)
  /\ (k = "age_65_plus" -> age_65_plus r = values).
Proof.
  intros Hlen Hnodup Hnames Hrun Hin Hne Hcol values.
  destruct (script_many_inv _ _ _ Hlen Hrun) as (d & Hd & Hr).
  apply normalize_inv in Hr
    as (cs & Hcs & Hdata & Hn & _ & Hpop & Ha0 & Ha1 & Ha2).
  assert (forall k', k' ∉ INDICATORS.*1 -> k' <> "countries" ->
                     data r !! k' = None) as Hnone.
  { intros k' Hk' Hne'. rewrite Hdata, truncate_all_lookup.
    rewrite (process_wb_data_unfetched _ _ _ _ Hd Hne'); [done |].
    intros df' Hin'. destruct Hk'. apply Hnames, list_elem_of_fmap.
    by exists (k', df'). }
  assert (d !! k = Some (coerce parse_float <$> col)) as Hk.
  { unfold process_wb_data in Hd.
    destruct wb_data as [| [name df0] rest]; [done |]. cbn [bind] in Hd.
    destruct (extract_countries df0); cbn [bind] in Hd; [| done].
    by eapply fill_indicators_lookup. }
  assert (data r !! k = Some values) as Hvalues
    by (subst values; by rewrite Hdata, truncate_all_lookup, Hk, Hn).
  assert (take (num_countries r) values = values) as Htake
    by (subst values; by rewrite take_take, Nat.min_id).
  assert (forall sample_key dflt,
            sample_key ∉ INDICATORS.*1 -> sample_key <> "countries" ->
            age_field sample_key k dflt (data r) (num_countries r) = values)
    as Hage.
  { intros sample_key dflt Hs Hs'. unfold age_field, data_get.
    rewrite (Hnone sample_key Hs Hs'), Hvalues. simpl. exact Htake. }
  rewrite population_fields_not_both in Hpop
    by (left; apply Hnone; [by apply (bool_decide_unpack _) | done]).
  injection Hpop as Hmale Hfemale. simpl in Hmale, Hfemale.
  split; [done |].
  split; [intros ->; by rewrite <- Hmale, Hvalues |].
  split; [intros ->; by rewrite <- Hfemale, Hvalues |].
  split; [intros ->; rewrite Ha0; apply Hage;
          [by apply (bool_decide_unpack _) | done] |].
  split; [intros ->; rewrite Ha1; apply Hage;
          [by apply (bool_decide_unpack _) | done] |].
  intros ->. rewrite Ha2. apply Hage; [by apply (bool_decide_unpack _) | done].
Qed.

Lemma fetched_values_reach_report_witness :
  exists r,
    script parse_unsigned three_tables = Ok r
    /\ data r !! "male_pop"
       = Some (take (num_countries r)
                 (coerce parse_unsigned <$> [PNum 163; PNone; PStr "717"]))
    /\ male_data r
       = take (num_countries r)
           (coerce parse_unsigned <$> [PNum 163; PNone; PStr "717"]).
Proof.
  destruct (script parse_unsigned three_tables) as [r |] eqn:Hr;
    [| vm_compute in Hr; discriminate Hr].
  exists r. split; [reflexivity |].
  destruct (fetched_values_reach_report parse_unsigned three_tables r
              "male_pop" three_rows [PNum 163; PNone; PStr "717"])
    as (Hdata & Hmale & _).
  - simpl. lia.
  - by apply (bool_decide_unpack _).
  - intros x Hx. simpl in Hx.
    repeat (apply elem_of_cons in Hx as [-> | Hx];
            [by apply (bool_decide_unpack _) |]).
    by apply elem_of_nil in Hx.
  - exact Hr.
  - left.
  - reflexivity.
  - reflexivity.
  - split; [exact Hdata | by apply Hmale].
Defined.

(** * The selection of the data and the resolution of the fields *)

Section RunsOfTheScript.

Variable parse_float : string -> option Q.


(** The processing branch, once it has returned. *)
Lemma process_wb_data_inv (wb_data : list (string * DataFrame))
    (d : gmap string (list pyval)) :
  process_wb_data parse_float wb_data = Ok d ->
  exists name df rest names,
    wb_data = (name, df) :: rest
    /\ extract_countries df = Ok names
    /\ fill_indicators parse_float wb_data {["countries" := names]} = Ok d.
Proof.
  unfold process_wb_data.
  destruct wb_data as [| [name df] rest]; [done |]. cbn [bind].
  destruct (extract_countries df) as [names |] eqn:Hnames; cbn [bind];
    [| done].
  intros Hfill. by exists name, df, rest, names.
Qed.


End RunsOfTheScript.

(** C1: the sample data is used exactly when the fetched mapping has two
    or fewer tables.  With [len(wb_data) <= 2] the selected data is the
    hard-coded sample structure, whatever the tables hold, and the script
    computes what it computes on the empty mapping.  With
    [len(wb_data) > 2] the selected data is built from the fetched
    mapping and from nothing else: its names are those that the first
    table gives, every other entry is the coerced [value] column of a
    non-empty fetched table of that name, every such table (the names
    being distinct) has its entry, and the data is returned as soon as
    the names can be extracted and every table is empty or has a [value]
    column. *)
Theorem sample_used_iff_at_most_two
    (parse_float : string -> option Q) (wb_data : list (string * DataFrame)) :
  (length wb_data <= 2 ->
     select_data parse_float wb_data = Ok create_sample_demographic_data
     /\ script parse_float wb_data = script parse_float [])
  /\ (2 < length wb_data ->
      select_data parse_float wb_data = process_wb_data parse_float wb_data
      /\ (forall d,
            select_data parse_float wb_data = Ok d ->
            (exists name df rest names,
               wb_data = (name, df) :: rest
               /\ extract_countries df = Ok names
               /\ ("countries" ∉ wb_data.*1 ->
                   d !! "countries" = Some names))
            /\ (forall k l,
                  k <> "countries" -> d !! k = Some l ->
                  exists df col,
                    (k, df) ∈ wb_data
                    /\ df_empty df = false
                    /\ alist_get "value" (df_columns df) = Some col
                    /\ l = coerce parse_float <$> col)
            /\ (NoDup wb_data.*1 ->
                forall k df col,
                  (k, df) ∈ wb_data ->
                  df_empty df = false ->
                  alist_get "value" (df_columns df) = Some col ->
                  d !! k = Some (coerce parse_float <$> col)))
      /\ (forall name df rest names,
            wb_data = (name, df) :: rest ->
            extract_countries df = Ok names ->
            Forall (λ item, processable item.2) wb_data ->
            exists d, select_data parse_float wb_data = Ok d)).
Proof.
  split.
  - intros Hlen. split; [by apply select_data_few |].
    unfold script. by rewrite !select_data_few by (simpl; lia).
  - intros Hlen. rewrite select_data_many by done.
    split; [done |]. split.
    + intros d Hd.
      destruct (process_wb_data_inv _ _ _ Hd)
        as (name & df & rest & names & Hwb & Hnames & Hfill).
      split; [| split].
      * exists name, df, rest, names. split; [done |]. split; [done |].
        intros Hfresh.
        rewrite (fill_indicators_other_key _ _ _ _ _ Hfresh Hfill).
        apply lookup_singleton_eq.
      * intros k l Hne Hk.
        destruct (fill_indicators_origin _ _ _ _ _ _ Hfill Hk)
          as [Hinit | Hfrom]; [| done].
        by rewrite lookup_singleton_ne in Hinit.
      * intros Hnodup k df' col Hin Hne Hcol.
        by eapply fill_indicators_lookup.
    + intros name df rest names -> Hnames Hproc.
      unfold process_wb_data. cbn [bind]. rewrite Hnames. cbn [bind].
      by apply fill_indicators_returns.
Qed.

Lemma sample_used_iff_at_most_two_witness :
  (select_data parse_unsigned two_tables = Ok create_sample_demographic_data
   /\ script parse_unsigned two_tables = script parse_unsigned [])
  /\ exists d,
       select_data parse_unsigned three_tables = Ok d
       /\ d !! "countries"
          = Some [PStr "United States"; PStr "China"; PStr "India"]
       /\ d !! "male_pop" = Some [PNum 163; PNum 0; PNum (inject_Z 717)]
       /\ d !! "male_population" = None.
Proof.
  split.
  - apply (sample_used_iff_at_most_two parse_unsigned two_tables). simpl. lia.
  - destruct (sample_used_iff_at_most_two parse_unsigned three_tables)
      as [_ Hmany].
    destruct Hmany as (_ & Hbuilt & Hreturns); [simpl; lia |].
    destruct (Hreturns "male_pop" three_rows
                [("female_pop", three_rows); ("age_0_14", one_row)]
                [PStr "United States"; PStr "China"; PStr "India"])
      as [d Hd]; [reflexivity | reflexivity | |].
    { repeat (apply List.Forall_cons; [right; by eexists |]).
      apply List.Forall_nil. }
    destruct (Hbuilt d Hd) as (Hnames & Horigin & Hlookup).
    exists d. split; [exact Hd |]. split; [| split].
    + destruct Hnames as (name & df & rest & names & Hwb & Hex & Hcs).
      injection Hwb as <- <- <-.
      assert (names = [PStr "United States"; PStr "China"; PStr "India"])
        as <- by (vm_compute in Hex; by injection Hex).
      apply Hcs. by apply (bool_decide_unpack _).
    + apply (Hlookup ltac:(by apply (bool_decide_unpack _))
               "male_pop" three_rows [PNum 163; PNone; PStr "717"]);
        [left | reflexivity | reflexivity].
    + destruct (d !! "male_population") as [l |] eqn:Hl; [| reflexivity].
      destruct (Horigin "male_population" l ltac:(done) Hl)
        as (df & col & Hin & _).
      exfalso. simpl in Hin.
      repeat (apply elem_of_cons in Hin as [Hin | Hin]; [discriminate Hin |]).
      by apply elem_of_nil in Hin.
Defined.



(** X7: nothing raises before the charts on tables in the expected shape.
    When the first table gives string names, no table is called
    "countries", and every table is empty or has a [value] column, lines
    66-109 go through: the data is selected and truncated, there is one
    label per country kept, and the population fields are resolved. *)
Theorem script_reaches_the_charts (parse_float : string -> option Q)
    (name : string) (df : DataFrame) (rest : list (string * DataFrame))
    (names : list pyval) :
  extract_countries df = Ok names ->
  Forall (λ c, is_str c = true) names ->
  "countries" ∉ name :: rest.*1 ->
  Forall (λ item, processable item.2) ((name, df) :: rest) ->
  exists d cs n data labels male female,
    select_data parse_float ((name, df) :: rest) = Ok d
    /\ d !! "countries" = Some cs
    /\ truncate d = Ok (n, data)
    /\ for_each shorten (take n cs) = Ok labels
    /\ length labels = n
    /\ population_fields data n = Ok (male, female).
Proof.
  intros Hnames Hstr Hfresh Hproc.
  assert (exists d cs,
            select_data parse_float ((name, df) :: rest) = Ok d
            /\ d !! "countries" = Some cs
            /\ Forall (λ c, is_str c = true) cs) as (d & cs & Hd & Hcs & Hcstr).
  { unfold select_data. destruct (_ && _).
    - unfold process_wb_data. cbn [bind]. rewrite Hnames. cbn [bind].
      destruct (fill_indicators_returns parse_float ((name, df) :: rest)
                  {["countries" := names]} Hproc) as [d Hd].
      exists d, names. split; [done |]. split; [| done].
      rewrite (fill_indicators_other_key _ ((name, df) :: rest) _ _ _
                 Hfresh Hd).
      apply lookup_singleton_eq.
    - eexists _, _. split; [done |]. split; [reflexivity |].
      by repeat constructor. }
  destruct (for_each_shorten_strs (take (Nat.min 8 (length cs)) cs))
    as (labels & Hlabels & _); [by apply Forall_take |].
  destruct (population_fields_returns
              (truncate_all (Nat.min 8 (length cs)) d)
              (Nat.min 8 (length cs))) as (male & female & Hpop).
  exists d, cs, (Nat.min 8 (length cs)),
    (truncate_all (Nat.min 8 (length cs)) d), labels, male, female.
  split; [done |]. split; [done |]. split; [by apply truncate_ok |].
  split; [done |]. split; [| done].
  apply for_each_length in Hlabels. rewrite Hlabels, length_take. lia.
Qed.

Lemma script_reaches_the_charts_witness :
  exists d cs n data labels male female,
    select_data parse_unsigned
      (("male_pop", three_rows)
         :: [("female_pop", three_rows); ("age_0_14", one_row)]) = Ok d
    /\ d !! "countries" = Some cs
    /\ truncate d = Ok (n, data)
    /\ for_each shorten (take n cs) = Ok labels
    /\ length labels = n
    /\ population_fields data n = Ok (male, female).
Proof.
  apply (script_reaches_the_charts parse_unsigned "male_pop" three_rows
           [("female_pop", three_rows); ("age_0_14", one_row)]
           [PStr "United States"; PStr "China"; PStr "India"]).
  - reflexivity.
  - repeat constructor.
  - by apply (bool_decide_unpack _).
  - repeat (apply List.Forall_cons; [right; by eexists |]).
    apply List.Forall_nil.
Defined.
